(** * SlotBoard: the rotating 5x5 symbol board

    A shallow embedding of [src/components/SlotBoard.svelte] (and of the
    caller in [slot-game/src/App.svelte]): the component's variables, the
    symbol grid generator, the rotation timeline handed to the animation
    library, the two exported operations [rotateBoard] and [resetRotation],
    and the effect that follows the [rotation] property.

    JavaScript numbers are IEEE 754 binary64 values; they are modelled by the
    Standard Library's [spec_float] with the binary64 parameters, so that
    every arithmetic expression of the source is evaluated with the rounding
    the program performs. *)

From Stdlib Require Import ZArith List String Ascii Bool Lia.
From Stdlib Require Import SpecFloat.
Import ListNotations.

Local Open Scope string_scope.
Local Open Scope list_scope.
Local Open Scope Z_scope.

(** ** JavaScript numbers *)

Module JS.

Definition number : Type := spec_float.

Definition prec : Z := 53.
Definition emax : Z := 1024.

Definition add : number -> number -> number := SFadd prec emax.
Definition mul : number -> number -> number := SFmul prec emax.
Definition div : number -> number -> number := SFdiv prec emax.

  (** [a === b] on numbers: IEEE equality ([NaN] differs from itself, the
      two zeros are equal). *)
Definition strict_eq : number -> number -> bool := SFeqb.
Definition lt : number -> number -> bool := SFltb.
Definition le : number -> number -> bool := SFleb.

  (** An integer literal. *)
Definition of_Z (z : Z) : number := binary_normalize prec emax z 0 false.

  (** A decimal literal [m / 10^k]: the quotient of two exactly
      representable integers is rounded once, as the literal is. *)
Definition decimal (m : Z) (k : nat) : number :=
    div (of_Z m) (of_Z (10 ^ Z.of_nat k)).

Definition zero : number := S754_zero false.
Definition one : number := of_Z 1.

  (** [Math.PI], 0x1.921fb54442d18p+1. *)
Definition Math_PI : number := S754_finite false 7074237752028440 (-51).

  (** The integer [floor x] of a finite number, [None] for NaN and the
      infinities. *)
Definition floorZ (x : number) : option Z :=
    match x with
    | S754_zero _ => Some 0
    | S754_finite s m e =>
        let n := if s then Z.neg m else Z.pos m in
        Some (if 0 <=? e then n * 2 ^ e else n / 2 ^ (- e))
    | _ => None
    end.

  (** [Math.floor]: NaN, the infinities and the zeros are returned as they
      are; the floor of a number in (-1, 0) is [-0], of one in (0, 1) [+0]. *)
Definition Math_floor (x : number) : number :=
    match x with
    | S754_finite s _ _ =>
        match floorZ x with
        | Some 0 => S754_zero s
        | Some n => binary_normalize prec emax n 0 false
        | None => x
        end
    | _ => x
    end.

  (** The array index a number denotes when it is used as a property key
      ([a[x]]): a non-negative integer value, both zeros giving index 0.
      Any other number names no element and the access yields
      [undefined]. *)
Definition array_index (x : number) : option nat :=
    match x with
    | S754_zero _ => Some 0%nat
    | S754_finite false m e =>
        if 0 <=? e then Some (Z.to_nat (Z.pos m * 2 ^ e))
        else if Z.pos m mod 2 ^ (- e) =? 0
             then Some (Z.to_nat (Z.pos m / 2 ^ (- e)))
             else None
    | _ => None
    end.

  (** [a[x]]: [None] stands for [undefined]. *)
Definition array_get {A : Type} (a : list A) (x : number) : option A :=
    match array_index x with
    | Some i => nth_error a i
    | None => None
    end.

  (** ['...'.split('')]: the one-character strings of a string. *)
Fixpoint split_chars (s : string) : list string :=
    match s with
    | EmptyString => []
    | String c rest => String c EmptyString :: split_chars rest
    end.

End JS.

Import JS.

Declare Scope js_scope.
Delimit Scope js_scope with js.
Bind Scope js_scope with number.
Infix "+" := JS.add : js_scope.
Infix "*" := JS.mul : js_scope.
Infix "/" := JS.div : js_scope.
Infix "===" := JS.strict_eq (at level 70, no associativity) : js_scope.

(** ** Configuration constants

    The integer settings are kept as integers; [of_Z] turns them into the
    numbers the arithmetic of the source works on (small integers are exact
    in binary64). *)

Module BOARD_CONFIG.
Definition GRID_SIZE : Z := 5.
Definition SYMBOL_SIZE : Z := 60.
Definition SYMBOL_SPACING : Z := 10.
Definition FRAME_PADDING : Z := 20.
Definition CANVAS_PADDING : Z := 100.
End BOARD_CONFIG.

Module ANIMATION_CONFIG.
Definition UPWARD_MOVEMENT : number := of_Z (-80).
Definition ROTATION_OVERSHOOT : number := of_Z 95.
Definition ROTATION_BOUNCE_BACK : number := of_Z 87.
Definition FINAL_ROTATION : number := of_Z 90.
Definition ZOOM_OUT_SCALE : number := decimal 90 2.
Definition ZOOM_IN_SCALE : number := decimal 10 1.

Module DURATION.
Definition UPWARD : number := decimal 4 1.
Definition ROTATION_BOUNCE : number := decimal 15 2.
Definition ROTATION_SETTLE : number := decimal 2 1.
Definition FALL_DOWN : number := decimal 5 1.
Definition RESET : number := decimal 5 1.
End DURATION.

Module EASING.
Definition UPWARD : string := "power2.out".
Definition ROTATION_BOUNCE : string := "power1.inOut".
Definition ROTATION_SETTLE : string := "elastic.out(1, 0.5)".
Definition FALL_DOWN : string := "bounce.out".
Definition RESET : string := "power2.inOut".
End EASING.
End ANIMATION_CONFIG.

Definition SYMBOLS : list string := split_chars "ABCDEFGHIJKLMNOPQRSTUVWXYZ".

Definition BOARD_WIDTH : number :=
  of_Z (BOARD_CONFIG.GRID_SIZE * BOARD_CONFIG.SYMBOL_SIZE
        + (BOARD_CONFIG.GRID_SIZE - 1) * BOARD_CONFIG.SYMBOL_SPACING
        + BOARD_CONFIG.FRAME_PADDING * 2).
Definition BOARD_HEIGHT : number := BOARD_WIDTH.
Definition CANVAS_WIDTH : number := (BOARD_WIDTH + of_Z BOARD_CONFIG.CANVAS_PADDING)%js.
Definition CANVAS_HEIGHT : number := (BOARD_HEIGHT + of_Z BOARD_CONFIG.CANVAS_PADDING)%js.

(** Degrees to radians, as the source writes it everywhere:
    [d * (Math.PI / 180)]. *)
Definition deg2rad (d : number) : number := (d * (Math_PI / of_Z 180))%js.

(** ** The symbol grid *)

Section SymbolGrid.

  (** [Math_random i] is the value of the [i]-th call of [Math.random()]
      made by one run of [generateSymbolGrid]. *)
Variable Math_random : nat -> number.

  (** The body of the [for] loop, run [count] more times from counter [i].
      An element is [None] when the array access yields [undefined]. *)
Fixpoint fill_grid (i count : nat) (grid : list (option string))
    : list (option string) :=
    match count with
    | O => grid
    | S count' =>
        let randomIndex :=
          Math_floor (Math_random i * of_Z (Z.of_nat (List.length SYMBOLS)))%js in
        fill_grid (S i) count' (grid ++ [array_get SYMBOLS randomIndex])
    end.

Definition generateSymbolGrid : list (option string) :=
    let totalCells := BOARD_CONFIG.GRID_SIZE * BOARD_CONFIG.GRID_SIZE in
    fill_grid 0 (Z.to_nat totalCells) [].

End SymbolGrid.

(** ** The scene object and the component's variables *)

Module PIXI.
  (** The fields of a [PIXI.Container] the component reads or writes;
      [scale_x], [scale_y] are [scale.x], [scale.y], and likewise the
      pivot. *)
Record Container : Type := mkContainer {
    x : number;
    y : number;
    rotation : number;
    scale_x : number;
    scale_y : number;
    pivot_x : number;
    pivot_y : number
  }.

Definition set_y (v : number) (c : Container) : Container :=
    mkContainer (x c) v (rotation c) (scale_x c) (scale_y c) (pivot_x c) (pivot_y c).
Definition set_rotation (v : number) (c : Container) : Container :=
    mkContainer (x c) (y c) v (scale_x c) (scale_y c) (pivot_x c) (pivot_y c).
Definition set_scale_x (v : number) (c : Container) : Container :=
    mkContainer (x c) (y c) (rotation c) v (scale_y c) (pivot_x c) (pivot_y c).
Definition set_scale_y (v : number) (c : Container) : Container :=
    mkContainer (x c) (y c) (rotation c) (scale_x c) v (pivot_x c) (pivot_y c).
Definition set_x (v : number) (c : Container) : Container :=
    mkContainer v (y c) (rotation c) (scale_x c) (scale_y c) (pivot_x c) (pivot_y c).
  (** [scale.set(a, b)] *)
Definition scale_set (a b : number) (c : Container) : Container :=
    set_scale_y b (set_scale_x a c).

  (** [new PIXI.Container()]: at the origin, unrotated, at scale 1. *)
Definition new_Container : Container :=
    mkContainer zero zero zero one one zero zero.
End PIXI.

(** Opaque handles. *)
Inductive HTMLDivElement : Type := the_div.
Inductive Application : Type := the_app.

Record Component : Type := mkComponent {
  activated : bool;                       (* prop, default false *)
  rotation : option number;               (* prop, [None] is undefined *)
  canvasContainer : option HTMLDivElement;
  boardContainer : option PIXI.Container;
  pixiApp : option Application;
  currentRotation : number;
  originalBoardY : number;
  symbolGrid : list (option string)
}.

Definition set_boardContainer (b : option PIXI.Container) (c : Component) : Component :=
  mkComponent (activated c) (rotation c) (canvasContainer c) b (pixiApp c)
              (currentRotation c) (originalBoardY c) (symbolGrid c).
Definition set_currentRotation (r : number) (c : Component) : Component :=
  mkComponent (activated c) (rotation c) (canvasContainer c) (boardContainer c)
              (pixiApp c) r (originalBoardY c) (symbolGrid c).
Definition set_rotation_prop (r : option number) (c : Component) : Component :=
  mkComponent (activated c) r (canvasContainer c) (boardContainer c)
              (pixiApp c) (currentRotation c) (originalBoardY c) (symbolGrid c).
Definition set_activated (a : bool) (c : Component) : Component :=
  mkComponent a (rotation c) (canvasContainer c) (boardContainer c)
              (pixiApp c) (currentRotation c) (originalBoardY c) (symbolGrid c).
Definition set_originalBoardY (v : number) (c : Component) : Component :=
  mkComponent (activated c) (rotation c) (canvasContainer c) (boardContainer c)
              (pixiApp c) (currentRotation c) v (symbolGrid c).

(** The component as its script block leaves it before mounting. *)
Definition initial_component : Component :=
  mkComponent false (Some zero) None None None zero zero [].


(** ** The animation library

    [gsap] is an external library.  What the component hands to it is
    modelled as data: a tween names the object it animates, the end value of
    each animated property, a duration, an easing curve and an optional
    completion callback; a timeline has a completion callback and the
    tweens added to it, each with its position parameter.  The component
    owns a single board container, so a tween target is either that object
    or its [scale] point. *)

Inductive Error : Type := JsError (message : string).

Module gsap.

Inductive Target : Type := Board | BoardScale.
Inductive Property : Type := X | Y | Rotation.

Record Tween : Type := mkTween {
  target : Target;
  props : list (Property * number);
  duration : number;
  ease : string;
  onComplete : option (Component -> Component)
}.

Record Timeline : Type := mkTimeline {
  tl_onComplete : option (Component -> Component);
  children : list (Tween * option string)
}.

Inductive Animation : Type :=
| OfTimeline (tl : Timeline)
| OfTween (tw : Tween).

(** [timeline.to(...)] on the timeline stored at position [id]. *)
Fixpoint add_child (id : nat) (child : Tween * option string)
  (l : list Animation) : list Animation :=
  match l with
  | [] => []
  | a :: l' =>
      match id with
      | O =>
          match a with
          | OfTimeline tl =>
              OfTimeline (mkTimeline (tl_onComplete tl) (children tl ++ [child])) :: l'
          | OfTween _ => a :: l'
          end
      | S id' => a :: add_child id' child l'
      end
  end.

(** The property of the board a tween key denotes on its target. *)
Definition read (t : Target) (p : Property) (b : PIXI.Container) : number :=
  match t, p with
  | Board, X => PIXI.x b
  | Board, Y => PIXI.y b
  | Board, Rotation => PIXI.rotation b
  | BoardScale, X => PIXI.scale_x b
  | BoardScale, Y => PIXI.scale_y b
  | BoardScale, Rotation => zero
  end.

Definition write (t : Target) (p : Property) (v : number) (b : PIXI.Container)
  : PIXI.Container :=
  match t, p with
  | Board, X => PIXI.set_x v b
  | Board, Y => PIXI.set_y v b
  | Board, Rotation => PIXI.set_rotation v b
  | BoardScale, X => PIXI.set_scale_x v b
  | BoardScale, Y => PIXI.set_scale_y v b
  | BoardScale, Rotation => b
  end.

End gsap.

(** ** The world the component runs in: its own variables, the animations
    handed to [gsap] (in creation order) and the console. *)

Record World : Type := mkWorld {
  comp : Component;
  animations : list gsap.Animation;
  console : list (string * Error)
}.

Definition set_comp (c : Component) (w : World) : World :=
  mkWorld c (animations w) (console w).
Definition set_animations (l : list gsap.Animation) (w : World) : World :=
  mkWorld (comp w) l (console w).

(** The animations created between [w] and a later world [w']. *)
Definition new_animations (w w' : World) : list gsap.Animation :=
  skipn (List.length (animations w)) (animations w').

(** ** Computations that change the world and may throw

    A thrown exception keeps the changes made before it. *)

Inductive completion (A : Type) : Type :=
| Normal (a : A)
| Throw (e : Error).
Arguments Normal {A} a.
Arguments Throw {A} e.

Definition M (A : Type) : Type := World -> completion A * World.

Definition ret {A : Type} (a : A) : M A := fun w => (Normal a, w).

Definition bind {A B : Type} (m : M A) (k : A -> M B) : M B :=
  fun w =>
    match m w with
    | (Normal a, w') => k a w'
    | (Throw e, w') => (Throw e, w')
    end.

Definition throw {A : Type} (e : Error) : M A := fun w => (Throw e, w).

(** [try { body } catch (error) { handler }] *)
Definition try_catch {A : Type} (body : M A) (handler : Error -> M A) : M A :=
  fun w =>
    match body w with
    | (Normal a, w') => (Normal a, w')
    | (Throw e, w') => handler e w'
    end.

Notation "x <- c1 ;; c2" := (bind c1 (fun x => c2))
  (at level 61, c1 at next level, right associativity).
Notation "c1 ;; c2" := (bind c1 (fun _ => c2))
  (at level 61, right associativity).

Definition get_comp : M Component := fun w => (Normal (comp w), w).
Definition modify_comp (f : Component -> Component) : M unit :=
  fun w => (Normal tt, set_comp (f (comp w)) w).

(** [console.error(message, error)] *)
Definition console_error (message : string) (error : Error) : M unit :=
  fun w => (Normal tt, mkWorld (comp w) (animations w) (console w ++ [(message, error)])).

Definition modify_board (f : PIXI.Container -> PIXI.Container) : M unit :=
  modify_comp (fun c =>
    match boardContainer c with
    | Some b => set_boardContainer (Some (f b)) c
    | None => c
    end).

Definition isSome {A : Type} (o : option A) : bool :=
  match o with Some _ => true | None => false end.

(** ** The component's operations *)

Section Operations.

(** Calls into the library may throw: [gsap_throws n] is the exception, if
    any, raised by the [n]-th library call of the running operation
    (counted from 0 in source order). *)
Variable gsap_throws : nat -> option Error.

Definition gsap_call {A : Type} (site : nat) (run : M A) : M A :=
  fun w =>
    match gsap_throws site with
    | Some e => (Throw e, w)
    | None => run w
    end.

(** [gsap.timeline({ onComplete })]: the new timeline starts playing at
    once; the result is its position among the animations. *)
Definition gsap_timeline (site : nat)
  (onComplete : option (Component -> Component)) : M nat :=
  gsap_call site (fun w =>
    (Normal (List.length (animations w)),
     set_animations
       (animations w ++ [gsap.OfTimeline (gsap.mkTimeline onComplete [])]) w)).

(** [timeline.to(target, { ...props, duration, ease }, position)] *)
Definition timeline_to (site : nat) (timeline : nat) (target : gsap.Target)
  (props : list (gsap.Property * number)) (duration : number) (ease : string)
  (position : option string) : M unit :=
  gsap_call site (fun w =>
    (Normal tt,
     set_animations
       (gsap.add_child timeline
          (gsap.mkTween target props duration ease None, position)
          (animations w)) w)).

(** [gsap.to(target, { ...props, duration, ease, onComplete })] *)
Definition gsap_to (site : nat) (target : gsap.Target)
  (props : list (gsap.Property * number)) (duration : number) (ease : string)
  (onComplete : option (Component -> Component)) : M unit :=
  gsap_call site (fun w =>
    (Normal tt,
     set_animations
       (animations w ++ [gsap.OfTween (gsap.mkTween target props duration ease onComplete)])
       w)).

(** The [onComplete] closure of the rotation timeline, over the captured
    [startRotation] and [startY]. *)
Definition rotation_onComplete (startRotation startY : number)
  : Component -> Component :=
  fun c =>
    match boardContainer c with
    | Some b =>
        let b1 := PIXI.set_rotation
                    ((startRotation + ANIMATION_CONFIG.FINAL_ROTATION)
                     * (Math_PI / of_Z 180))%js b in
        let b2 := PIXI.set_y startY b1 in
        let b3 := PIXI.scale_set ANIMATION_CONFIG.ZOOM_IN_SCALE
                    ANIMATION_CONFIG.ZOOM_IN_SCALE b2 in
        set_currentRotation (startRotation + ANIMATION_CONFIG.FINAL_ROTATION)%js
          (set_boardContainer (Some b3) c)
    | None => c
    end.

Definition createRotationAnimation : M nat :=
  c <- get_comp ;;
  match boardContainer c with
  | None => throw (JsError "Board container not initialized")
  | Some b =>
      let startY := PIXI.y b in
      let startRotation := currentRotation c in
      let targetY := (startY + ANIMATION_CONFIG.UPWARD_MOVEMENT)%js in
      (if (PIXI.scale_x b === of_Z 0)%js || (PIXI.scale_y b === of_Z 0)%js
       then modify_board (PIXI.scale_set (of_Z 1) (of_Z 1))
       else ret tt) ;;
      timeline <- gsap_timeline 0 (Some (rotation_onComplete startRotation startY)) ;;
      timeline_to 1 timeline gsap.BoardScale
        [(gsap.X, ANIMATION_CONFIG.ZOOM_OUT_SCALE);
         (gsap.Y, ANIMATION_CONFIG.ZOOM_OUT_SCALE)]
        ANIMATION_CONFIG.DURATION.UPWARD ANIMATION_CONFIG.EASING.UPWARD
        None ;;
      timeline_to 2 timeline gsap.Board
        [(gsap.Y, targetY);
         (gsap.Rotation,
          ((startRotation + ANIMATION_CONFIG.ROTATION_OVERSHOOT)
           * (Math_PI / of_Z 180))%js)]
        ANIMATION_CONFIG.DURATION.UPWARD ANIMATION_CONFIG.EASING.UPWARD
        (Some "<") ;;
      timeline_to 3 timeline gsap.Board
        [(gsap.Rotation,
          ((startRotation + ANIMATION_CONFIG.ROTATION_BOUNCE_BACK)
           * (Math_PI / of_Z 180))%js)]
        ANIMATION_CONFIG.DURATION.ROTATION_BOUNCE
        ANIMATION_CONFIG.EASING.ROTATION_BOUNCE
        (Some "-=0.05") ;;
      timeline_to 4 timeline gsap.Board
        [(gsap.Rotation,
          ((startRotation + ANIMATION_CONFIG.FINAL_ROTATION)
           * (Math_PI / of_Z 180))%js);
         (gsap.Y, targetY)]
        ANIMATION_CONFIG.DURATION.ROTATION_SETTLE
        ANIMATION_CONFIG.EASING.ROTATION_SETTLE
        None ;;
      timeline_to 5 timeline gsap.BoardScale
        [(gsap.X, ANIMATION_CONFIG.ZOOM_IN_SCALE);
         (gsap.Y, ANIMATION_CONFIG.ZOOM_IN_SCALE)]
        ANIMATION_CONFIG.DURATION.FALL_DOWN ANIMATION_CONFIG.EASING.FALL_DOWN
        (Some "-=0.05") ;;
      timeline_to 6 timeline gsap.Board
        [(gsap.Y, startY)]
        ANIMATION_CONFIG.DURATION.FALL_DOWN ANIMATION_CONFIG.EASING.FALL_DOWN
        (Some "<") ;;
      ret timeline
  end.

(** [export function rotateBoard()] *)
Definition rotateBoard : M unit :=
  c <- get_comp ;;
  if negb (isSome (boardContainer c)) || negb (activated c) then ret tt
  else
    try_catch
      (_ <- createRotationAnimation ;; ret tt)
      (fun error => console_error "Failed to animate board rotation:" error).

(** [export function resetRotation()] *)
Definition resetRotation : M unit :=
  c <- get_comp ;;
  if negb (isSome (boardContainer c)) then ret tt
  else
    gsap_to 0 gsap.Board [(gsap.Rotation, of_Z 0)]
      ANIMATION_CONFIG.DURATION.RESET ANIMATION_CONFIG.EASING.RESET
      (Some (set_currentRotation (of_Z 0))).

End Operations.

(** The body of the [$effect] that follows the [rotation] property. *)
Definition rotation_effect (c : Component) : Component :=
  match rotation c, boardContainer c with
  | Some r, Some b =>
      set_currentRotation r
        (set_boardContainer
           (Some (PIXI.set_rotation (r * (Math_PI / of_Z 180))%js b)) c)
  | _, _ => c
  end.

(** The [rotation] property is a signal of the framework.  An assignment
    of a value [===] to the one the property holds is dropped: the property
    keeps the value it had and nothing that depends on it runs. *)
Definition same_value (held : option number) (r : number) : bool :=
  match held with
  | Some v => (v === r)%js
  | None => false
  end.

(** The parent sets the property to [r], and the effects this schedules
    are flushed.  The effect reads [rotation] first, so the property is its
    dependency in every run, and it is its only one ([boardContainer] is a
    plain variable): the effect runs again exactly when the assignment
    changed the property's value. *)
Definition set_rotation (r : number) : M unit :=
  c <- get_comp ;;
  if same_value (rotation c) r then ret tt
  else (modify_comp (set_rotation_prop (Some r)) ;;
        modify_comp rotation_effect).

(** [initializeBoardContainer()] *)
Definition initializeBoardContainer : M PIXI.Container :=
  let container := PIXI.new_Container in
  let container :=
    PIXI.mkContainer
      (CANVAS_WIDTH / of_Z 2)%js (CANVAS_HEIGHT / of_Z 2)%js
      (PIXI.rotation container) (PIXI.scale_x container) (PIXI.scale_y container)
      (BOARD_WIDTH / of_Z 2)%js (BOARD_HEIGHT / of_Z 2)%js in
  modify_comp (set_originalBoardY (CANVAS_HEIGHT / of_Z 2)%js) ;;
  ret container.

Section Mount.

Variable Math_random : nat -> number.
(** The exception, if any, with which [pixiApp.init] rejects. *)
Variable init_throws : option Error.

(** [onMount]: the drawing of the frame and of the cells only adds children
    to the scene and is left out. *)
Definition onMount : M unit :=
  c <- get_comp ;;
  if negb (isSome (canvasContainer c)) then ret tt
  else
    try_catch
      (modify_comp (fun c =>
         mkComponent (activated c) (rotation c) (canvasContainer c)
           (boardContainer c) (Some the_app) (currentRotation c)
           (originalBoardY c) (symbolGrid c)) ;;
       match init_throws with Some e => throw e | None => ret tt end ;;
       b <- initializeBoardContainer ;;
       modify_comp (set_boardContainer (Some b)) ;;
       modify_comp (fun c =>
         mkComponent (activated c) (rotation c) (canvasContainer c)
           (boardContainer c) (pixiApp c) (currentRotation c)
           (originalBoardY c) (generateSymbolGrid Math_random)) ;;
       modify_comp (set_currentRotation (of_Z 0)) ;;
       c <- get_comp ;;
       modify_board (PIXI.set_rotation (currentRotation c)))
      (fun error => console_error "Failed to initialize board:" error).

End Mount.

(** ** The page around the board ([App.svelte])

    [bind:this] has bound the board instance, and the page's [activated]
    state is the board's [activated] property. *)

Module App.

Definition activateFeature : M unit := modify_comp (set_activated true).

Definition rotateBoard (gsap_throws : nat -> option Error) : M unit :=
  c <- get_comp ;;
  if activated c then rotateBoard gsap_throws else ret tt.

Definition resetBoard (gsap_throws : nat -> option Error) : M unit :=
  resetRotation gsap_throws.

End App.

(** ** Running animations to completion

    The easing engine renders a tween frame by frame; only the last frame
    matters for the state an animation leaves behind.  [last_frame v e] is
    the value that frame writes into a property currently holding [v] and
    tweened to the end value [e]: [e] itself for an exact engine, something
    near it for one that drifts.  When a tween has rendered its last frame
    its completion callback runs; a timeline finishes its tweens in the
    order they were added and then runs its own callback. *)

Section Engine.

Variable last_frame : number -> number -> number.

Definition render_end (tw : gsap.Tween) (b : PIXI.Container) : PIXI.Container :=
  fold_left
    (fun b pv =>
       gsap.write (gsap.target tw) (fst pv)
         (last_frame (gsap.read (gsap.target tw) (fst pv) b) (snd pv)) b)
    (gsap.props tw) b.

Definition run_callback (k : option (Component -> Component)) (c : Component)
  : Component :=
  match k with
  | Some f => f c
  | None => c
  end.

Definition finish_tween (tw : gsap.Tween) (c : Component) : Component :=
  let c1 :=
    match boardContainer c with
    | Some b => set_boardContainer (Some (render_end tw b)) c
    | None => c
    end in
  run_callback (gsap.onComplete tw) c1.

Definition finish_timeline (tl : gsap.Timeline) (c : Component) : Component :=
  let c1 := fold_left (fun c ch => finish_tween (fst ch) c) (gsap.children tl) c in
  run_callback (gsap.tl_onComplete tl) c1.

Definition finish (a : gsap.Animation) (c : Component) : Component :=
  match a with
  | gsap.OfTimeline tl => finish_timeline tl c
  | gsap.OfTween tw => finish_tween tw c
  end.

(** Run an operation and let every animation it created play to its end. *)
Definition run_to_completion (op : M unit) (w : World) : Component :=
  let w' := snd (op w) in
  fold_left (fun c a => finish a c) (new_animations w w') (comp w').

End Engine.

(** The engine that lands exactly on every end value. *)
Definition exact_engine : number -> number -> number := fun _ e => e.

Definition no_fault : nat -> option Error := fun _ => None.

(** ** A mounted board *)

(** A source of random numbers that alternates between 0.5 and 0.99. *)
Definition alternating_random : nat -> number :=
  fun i => if Nat.even i then decimal 5 1 else decimal 99 2.

Definition mounted : World :=
  snd (onMount alternating_random None
         (mkWorld (mkComponent false (Some zero) (Some the_div) None None zero zero [])
                  [] [])).

Definition activated_world : World := snd (App.activateFeature mounted).


(** ** Auxiliary definitions for the properties *)

(** The scale guard at the head of [createRotationAnimation]. *)
Definition scale_guard (b : PIXI.Container) : PIXI.Container :=
  if ((PIXI.scale_x b === of_Z 0) || (PIXI.scale_y b === of_Z 0))%js
  then PIXI.scale_set (of_Z 1) (of_Z 1) b
  else b.

(** The six tweens of the rotation timeline, in the order they are added
    ([createRotationAnimation_builds] below shows that these are the tweens
    the function hands to the library). *)
Definition rotation_tweens (startRotation startY : number)
  : list (gsap.Tween * option string) :=
  let targetY := (startY + ANIMATION_CONFIG.UPWARD_MOVEMENT)%js in
  [ (gsap.mkTween gsap.BoardScale
       [(gsap.X, ANIMATION_CONFIG.ZOOM_OUT_SCALE); (gsap.Y, ANIMATION_CONFIG.ZOOM_OUT_SCALE)]
       ANIMATION_CONFIG.DURATION.UPWARD ANIMATION_CONFIG.EASING.UPWARD None, None);
    (gsap.mkTween gsap.Board
       [(gsap.Y, targetY);
        (gsap.Rotation, deg2rad (startRotation + ANIMATION_CONFIG.ROTATION_OVERSHOOT)%js)]
       ANIMATION_CONFIG.DURATION.UPWARD ANIMATION_CONFIG.EASING.UPWARD None, Some "<");
    (gsap.mkTween gsap.Board
       [(gsap.Rotation, deg2rad (startRotation + ANIMATION_CONFIG.ROTATION_BOUNCE_BACK)%js)]
       ANIMATION_CONFIG.DURATION.ROTATION_BOUNCE ANIMATION_CONFIG.EASING.ROTATION_BOUNCE
       None, Some "-=0.05");
    (gsap.mkTween gsap.Board
       [(gsap.Rotation, deg2rad (startRotation + ANIMATION_CONFIG.FINAL_ROTATION)%js);
        (gsap.Y, targetY)]
       ANIMATION_CONFIG.DURATION.ROTATION_SETTLE ANIMATION_CONFIG.EASING.ROTATION_SETTLE
       None, None);
    (gsap.mkTween gsap.BoardScale
       [(gsap.X, ANIMATION_CONFIG.ZOOM_IN_SCALE); (gsap.Y, ANIMATION_CONFIG.ZOOM_IN_SCALE)]
       ANIMATION_CONFIG.DURATION.FALL_DOWN ANIMATION_CONFIG.EASING.FALL_DOWN
       None, Some "-=0.05");
    (gsap.mkTween gsap.Board
       [(gsap.Y, startY)]
       ANIMATION_CONFIG.DURATION.FALL_DOWN ANIMATION_CONFIG.EASING.FALL_DOWN
       None, Some "<") ].

(** The end values a timeline gives to one property of one target, in
    order. *)
Definition targets_of (t : gsap.Target) (p : gsap.Property)
  (tl : gsap.Timeline) : list number :=
  flat_map
    (fun ch =>
       match t, gsap.target (fst ch) with
       | gsap.Board, gsap.Board | gsap.BoardScale, gsap.BoardScale =>
           flat_map
             (fun pv =>
                match p, fst pv with
                | gsap.X, gsap.X | gsap.Y, gsap.Y | gsap.Rotation, gsap.Rotation =>
                    [snd pv]
                | _, _ => []
                end)
             (gsap.props (fst ch))
       | _, _ => []
       end)
    (gsap.children tl).

(** The world once an operation has run and the animations it created have
    played to their end. *)
Definition settle (last_frame : number -> number -> number) (op : M unit)
  (w : World) : World :=
  set_comp (run_to_completion last_frame op w) (snd (op w)).

(** The activated board after one completed rotation. *)
Definition once_rotated : World :=
  settle exact_engine (rotateBoard no_fault) activated_world.

(** The activated board in the middle of its first rotation: the timeline
    has been created and its first two tweens (zoom out, move up and
    overshoot) have played; the timeline has not completed. *)
Definition mid_flight : World :=
  let w' := snd (rotateBoard no_fault activated_world) in
  set_comp
    (fold_left
       (fun c a =>
          match a with
          | gsap.OfTimeline tl =>
              fold_left (fun c ch => finish_tween exact_engine (fst ch) c)
                (firstn 2 (gsap.children tl)) c
          | gsap.OfTween _ => c
          end)
       (new_animations activated_world w') (comp w'))
    w'.

(** A library whose third call fails. *)
Definition third_call_fails : nat -> option Error :=
  fun n => if Nat.eqb n 2 then Some (JsError "Cannot tween a null target") else None.

(** The values [Math.random()] may return: a binary64 number [u] with
    [0 <= u < 1]. *)
Definition in_unit_interval (u : number) : bool :=
  valid_binary prec emax u && JS.le (of_Z 0) u && JS.lt u (of_Z 1).

Definition is_uppercase_letter (s : string) : bool :=
  match s with
  | String c EmptyString =>
      ((65 <=? nat_of_ascii c) && (nat_of_ascii c <=? 90))%nat
  | _ => false
  end.

(** [kept rec k bound]: the shift record [rec], reached after shifting [k]
    bits out of a mantissa, still stands for a value whose double is at
    most [bound]: twice the kept mantissa at its weight, plus one unit at
    that weight when the round bit is set. *)
Definition kept (rec : shr_record) (k : Z) (bound : Z) : Prop :=
  0 <= shr_m rec /\
  2 * shr_m rec * 2 ^ k + (if shr_r rec then 2 ^ k else 0) <= bound.

(** ** Definitions for the further properties *)

(** The component after the scale guard of [createRotationAnimation]. *)
Definition after_guard (c : Component) : Component :=
  match boardContainer c with
  | Some b =>
      if ((PIXI.scale_x b === of_Z 0) || (PIXI.scale_y b === of_Z 0))%js
      then set_boardContainer (Some (PIXI.scale_set (of_Z 1) (of_Z 1) b)) c
      else c
  | None => c
  end.

(** The first library call, among [count] calls numbered from [from], that
    throws, with its exception. *)
Fixpoint first_fault (gsap_throws : nat -> option Error) (from count : nat)
  : option (nat * Error) :=
  match count with
  | O => None
  | S count' =>
      match gsap_throws from with
      | Some e => Some (from, e)
      | None => first_fault gsap_throws (S from) count'
      end
  end.

(** The rotation timeline once its first [k] tweens have been added. *)
Definition rotation_timeline (startRotation startY : number) (k : nat)
  : gsap.Timeline :=
  gsap.mkTimeline (Some (rotation_onComplete startRotation startY))
    (firstn k (rotation_tweens startRotation startY)).

(** The tween [resetRotation] creates. *)
Definition reset_tween : gsap.Tween :=
  gsap.mkTween gsap.Board [(gsap.Rotation, of_Z 0)]
    ANIMATION_CONFIG.DURATION.RESET ANIMATION_CONFIG.EASING.RESET
    (Some (set_currentRotation (of_Z 0))).

(** The animations the component hands to the library: a rotation timeline,
    complete or cut short by an exception, or a reset tween. *)
Definition component_made (a : gsap.Animation) : Prop :=
  (exists r y k, a = gsap.OfTimeline (rotation_timeline r y k)) \/
  a = gsap.OfTween reset_tween.

(** What can happen to a mounted board: the page's three buttons, the parent
    setting the [rotation] property, and one of the animations created so
    far playing to its end ([Complete n], for the [n]-th one; nothing keeps
    an animation from being completed in any order or more than once, which
    only adds runs to those of the real engine). *)
Inductive Event : Type :=
| Activate
| Rotate (gsap_throws : nat -> option Error)
| Reset (gsap_throws : nat -> option Error)
| SetRotation (r : number)
| Complete (n : nat).

Definition apply_event (last_frame : number -> number -> number)
  (ev : Event) (w : World) : World :=
  match ev with
  | Activate => snd (App.activateFeature w)
  | Rotate gsap_throws => snd (App.rotateBoard gsap_throws w)
  | Reset gsap_throws => snd (App.resetBoard gsap_throws w)
  | SetRotation r => snd (set_rotation r w)
  | Complete n =>
      match nth_error (animations w) n with
      | Some a => set_comp (finish last_frame a (comp w)) w
      | None => w
      end
  end.

Definition run_events (last_frame : number -> number -> number)
  (evs : list Event) (w : World) : World :=
  fold_left (fun w ev => apply_event last_frame ev w) evs w.

(** What every event keeps of a world [w0] with a board [b0]. *)
Definition kept_since (w0 w : World) : Prop :=
  (exists b b0,
     boardContainer (comp w) = Some b /\
     boardContainer (comp w0) = Some b0 /\
     PIXI.x b = PIXI.x b0 /\
     PIXI.pivot_x b = PIXI.pivot_x b0 /\
     PIXI.pivot_y b = PIXI.pivot_y b0) /\
  canvasContainer (comp w) = canvasContainer (comp w0) /\
  pixiApp (comp w) = pixiApp (comp w0) /\
  originalBoardY (comp w) = originalBoardY (comp w0) /\
  symbolGrid (comp w) = symbolGrid (comp w0) /\
  (activated (comp w0) = true -> activated (comp w) = true) /\
  Forall component_made (animations w) /\
  (exists log,
     console w = console w0 ++ log /\
     Forall (fun entry => fst entry = "Failed to animate board rotation:") log).

(** A library every call of which fails. *)
Definition all_calls_fail : nat -> option Error :=
  fun _ => Some (JsError "gsap is not loaded").

(** A busy afternoon on the mounted board. *)
Definition sample_events : list Event :=
  [ Rotate no_fault; Activate; Rotate no_fault; Rotate third_call_fails;
    SetRotation (of_Z 45); Complete 1; Reset no_fault; Complete 0;
    Reset all_calls_fail; Complete 2; Complete 7 ].

(** The mounted, activated board with its scale collapsed to 0. *)
Definition collapsed_world : World :=
  snd (modify_board (PIXI.scale_set (of_Z 0) (of_Z 0)) activated_world).

(** ** The static scene: frame and cells *)

(** [n % d] on numbers: the remainder of the truncated division, exact,
    with the sign of the dividend. *)
Definition remainder (n d : number) : number :=
  match n, d with
  | S754_nan, _ | _, S754_nan => S754_nan
  | S754_infinity _, _ => S754_nan
  | _, S754_infinity _ => n
  | _, S754_zero _ => S754_nan
  | S754_zero _, _ => n
  | S754_finite sn mn en, S754_finite _ md ed =>
      let e := Z.min en ed in
      let r := (Z.pos mn * 2 ^ (en - e)) mod (Z.pos md * 2 ^ (ed - e)) in
      match r with
      | 0 => S754_zero sn
      | _ => binary_normalize prec emax (if sn then - r else r) e false
      end
  end.

Module VISUAL_CONFIG.
Definition FRAME_LINE_WIDTH : Z := 4.
Definition FRAME_BORDER_RADIUS : Z := 8.
Definition CELL_BORDER_RADIUS : Z := 4.
End VISUAL_CONFIG.

(** [drawRoundedRect(x, y, width, height, radius)] *)
Record RoundedRect : Type := mkRoundedRect {
  rect_x : number;
  rect_y : number;
  rect_width : number;
  rect_height : number;
  rect_radius : number
}.

(** A cell: a container at ([cell_x], [cell_y]) holding a background and a
    text anchored at its centre.  Colours and the text style are left out. *)
Record SymbolCell : Type := mkSymbolCell {
  cell_x : number;
  cell_y : number;
  cell_bg : RoundedRect;
  cell_text : option string;
  text_anchor : number;
  text_x : number;
  text_y : number
}.

Record SymbolsGrid : Type := mkSymbolsGrid {
  grid_x : number;
  grid_y : number;
  grid_cells : list SymbolCell
}.

(** [createSymbolCell(symbolChar, x, y)] *)
Definition createSymbolCell (symbolChar : option string) (x y : number)
  : SymbolCell :=
  mkSymbolCell x y
    (mkRoundedRect (of_Z 0) (of_Z 0)
       (of_Z BOARD_CONFIG.SYMBOL_SIZE) (of_Z BOARD_CONFIG.SYMBOL_SIZE)
       (of_Z VISUAL_CONFIG.CELL_BORDER_RADIUS))
    symbolChar
    (decimal 5 1)
    (of_Z BOARD_CONFIG.SYMBOL_SIZE / of_Z 2)%js
    (of_Z BOARD_CONFIG.SYMBOL_SIZE / of_Z 2)%js.

(** [createBoardFrame()] *)
Definition createBoardFrame : RoundedRect :=
  mkRoundedRect (of_Z 0) (of_Z 0) BOARD_WIDTH BOARD_HEIGHT
    (of_Z VISUAL_CONFIG.FRAME_BORDER_RADIUS).

(** [grid[i]], [undefined] past the end. *)
Definition grid_get (grid : list (option string)) (i : nat) : option string :=
  match nth_error grid i with
  | Some s => s
  | None => None
  end.

(** The body of the loop of [createSymbolsGrid] at counter [i]. *)
Definition cell_at (grid : list (option string)) (i : nat) : SymbolCell :=
  let row := Math_floor (of_Z (Z.of_nat i) / of_Z BOARD_CONFIG.GRID_SIZE)%js in
  let col := remainder (of_Z (Z.of_nat i)) (of_Z BOARD_CONFIG.GRID_SIZE) in
  let symbolChar := grid_get grid i in
  let x := (col * (of_Z BOARD_CONFIG.SYMBOL_SIZE + of_Z BOARD_CONFIG.SYMBOL_SPACING))%js in
  let y := (row * (of_Z BOARD_CONFIG.SYMBOL_SIZE + of_Z BOARD_CONFIG.SYMBOL_SPACING))%js in
  createSymbolCell symbolChar x y.

(** The loop, run [count] more times from counter [i]. *)
Fixpoint place_cells (grid : list (option string)) (i count : nat)
  (children : list SymbolCell) : list SymbolCell :=
  match count with
  | O => children
  | S count' => place_cells grid (S i) count' (children ++ [cell_at grid i])
  end.

(** [createSymbolsGrid()] *)
Definition createSymbolsGrid (Math_random : nat -> number) : M SymbolsGrid :=
  modify_comp (fun c =>
    mkComponent (activated c) (rotation c) (canvasContainer c)
      (boardContainer c) (pixiApp c) (currentRotation c)
      (originalBoardY c) (generateSymbolGrid Math_random)) ;;
  c <- get_comp ;;
  ret (mkSymbolsGrid (of_Z BOARD_CONFIG.FRAME_PADDING) (of_Z BOARD_CONFIG.FRAME_PADDING)
         (place_cells (symbolGrid c) 0 (List.length (symbolGrid c)) [])).

(** The cell of index [i] on the 5 x 5 lattice of pitch 70. *)
Definition lattice_cell (grid : list (option string)) (i : nat) : SymbolCell :=
  createSymbolCell (grid_get grid i)
    (of_Z (70 * Z.of_nat (i mod 5))) (of_Z (70 * Z.of_nat (i / 5))).

(** Two cells, seen in the grid's coordinates, are apart by at least the
    spacing, horizontally or vertically. *)
Definition apart (a b : SymbolCell) : bool :=
  let gap := of_Z BOARD_CONFIG.SYMBOL_SPACING in
  JS.le ((cell_x a + rect_width (cell_bg a)) + gap)%js (cell_x b) ||
  JS.le ((cell_x b + rect_width (cell_bg b)) + gap)%js (cell_x a) ||
  JS.le ((cell_y a + rect_height (cell_bg a)) + gap)%js (cell_y b) ||
  JS.le ((cell_y b + rect_height (cell_bg b)) + gap)%js (cell_y a).

(** A cell of a grid lies inside a frame, at least [FRAME_PADDING] away
    from each of its edges (board coordinates). *)
Definition inside_frame (g : SymbolsGrid) (frame : RoundedRect) (a : SymbolCell)
  : bool :=
  let pad := of_Z BOARD_CONFIG.FRAME_PADDING in
  JS.le (rect_x frame + pad)%js (grid_x g + cell_x a)%js &&
  JS.le (rect_y frame + pad)%js (grid_y g + cell_y a)%js &&
  JS.le (((grid_x g + cell_x a) + rect_width (cell_bg a)) + pad)%js
        (rect_x frame + rect_width frame)%js &&
  JS.le (((grid_y g + cell_y a) + rect_height (cell_bg a)) + pad)%js
        (rect_y frame + rect_height frame)%js.

(** The draw in the middle of the [k]-th of 26 equal parts of [0, 1). *)
Definition draw_for (k : nat) : number :=
  (of_Z (2 * Z.of_nat k + 1) / of_Z 52)%js.

(** ** Earlier versions of the component ([unnamed/part_000])

    The first script of the file has [rotateBoard] build the timeline
    itself, with the constants as locals and no [try]; the second script is
    the first draft, which only rotates. *)

(** [a || b] on numbers: [b] when [a] is 0, -0 or NaN. *)
Definition number_or (a b : number) : number :=
  match a with
  | S754_zero _ | S754_nan => b
  | _ => a
  end.

Module Inlined.

Definition rotateBoard (gsap_throws : nat -> option Error) : M unit :=
  c <- get_comp ;;
  if negb (isSome (boardContainer c)) || negb (activated c) then ret tt
  else
    match boardContainer c with
    | None => ret tt
    | Some b =>
        let UPWARD_MOVEMENT := of_Z (-80) in
        let ROTATION_OVERSHOOT := of_Z 95 in
        let ROTATION_BOUNCE_BACK := of_Z 87 in
        let FINAL_ROTATION := of_Z 90 in
        let ZOOM_OUT_SCALE := decimal 90 2 in
        let ZOOM_IN_SCALE := decimal 10 1 in
        let startY := PIXI.y b in
        let startRotation := currentRotation c in
        let startScale := number_or (PIXI.scale_x b) (of_Z 1) in
        let targetY := (startY + UPWARD_MOVEMENT)%js in
        (if (PIXI.scale_x b === of_Z 0)%js || (PIXI.scale_y b === of_Z 0)%js
         then modify_board (PIXI.scale_set (of_Z 1) (of_Z 1))
         else ret tt) ;;
        timeline <- gsap_timeline gsap_throws 0
          (Some (fun c =>
             match boardContainer c with
             | Some b =>
                 let b1 := PIXI.set_rotation
                             ((startRotation + FINAL_ROTATION)
                              * (Math_PI / of_Z 180))%js b in
                 let b2 := PIXI.set_y startY b1 in
                 let b3 := PIXI.scale_set ZOOM_IN_SCALE ZOOM_IN_SCALE b2 in
                 set_currentRotation (startRotation + FINAL_ROTATION)%js
                   (set_boardContainer (Some b3) c)
             | None => c
             end)) ;;
        timeline_to gsap_throws 1 timeline gsap.BoardScale
          [(gsap.X, ZOOM_OUT_SCALE); (gsap.Y, ZOOM_OUT_SCALE)]
          (decimal 4 1) "power2.out" None ;;
        timeline_to gsap_throws 2 timeline gsap.Board
          [(gsap.Y, targetY);
           (gsap.Rotation,
            ((startRotation + ROTATION_OVERSHOOT) * (Math_PI / of_Z 180))%js)]
          (decimal 4 1) "power2.out" (Some "<") ;;
        timeline_to gsap_throws 3 timeline gsap.Board
          [(gsap.Rotation,
            ((startRotation + ROTATION_BOUNCE_BACK) * (Math_PI / of_Z 180))%js)]
          (decimal 15 2) "power1.inOut" (Some "-=0.05") ;;
        timeline_to gsap_throws 4 timeline gsap.Board
          [(gsap.Rotation,
            ((startRotation + FINAL_ROTATION) * (Math_PI / of_Z 180))%js);
           (gsap.Y, targetY)]
          (decimal 2 1) "elastic.out(1, 0.5)" None ;;
        timeline_to gsap_throws 5 timeline gsap.BoardScale
          [(gsap.X, ZOOM_IN_SCALE); (gsap.Y, ZOOM_IN_SCALE)]
          (decimal 5 1) "bounce.out" (Some "-=0.05") ;;
        timeline_to gsap_throws 6 timeline gsap.Board
          [(gsap.Y, startY)]
          (decimal 5 1) "bounce.out" (Some "<")
    end.

End Inlined.

Module RotationOnly.

(** The completion handler of the first draft reads the tracked rotation
    when it runs. *)
Definition onComplete : Component -> Component :=
  fun c =>
    match boardContainer c with
    | Some b =>
        set_currentRotation (currentRotation c + of_Z 90)%js
          (set_boardContainer
             (Some (PIXI.set_rotation
                      ((currentRotation c * (Math_PI / of_Z 180))
                       + (Math_PI / of_Z 2))%js b))
             c)
    | None => c
    end.

Definition rotateBoard (gsap_throws : nat -> option Error) : M unit :=
  c <- get_comp ;;
  if negb (isSome (boardContainer c)) || negb (activated c) then ret tt
  else
    timeline <- gsap_timeline gsap_throws 0 (Some onComplete) ;;
    c <- get_comp ;;
    let startRotation := currentRotation c in
    timeline_to gsap_throws 1 timeline gsap.Board
      [(gsap.Rotation, ((startRotation + of_Z 95) * (Math_PI / of_Z 180))%js)]
      (decimal 4 1) "power2.out" None ;;
    timeline_to gsap_throws 2 timeline gsap.Board
      [(gsap.Rotation, ((startRotation + of_Z 87) * (Math_PI / of_Z 180))%js)]
      (decimal 2 1) "power1.inOut" None ;;
    timeline_to gsap_throws 3 timeline gsap.Board
      [(gsap.Rotation, ((startRotation + of_Z 90) * (Math_PI / of_Z 180))%js)]
      (decimal 3 1) "elastic.out(1, 0.5)" None.

(** The timeline the draft creates from tracked rotation [r]. *)
Definition timeline (r : number) : gsap.Timeline :=
  gsap.mkTimeline (Some onComplete)
    [ (gsap.mkTween gsap.Board [(gsap.Rotation, deg2rad (r + of_Z 95)%js)]
         (decimal 4 1) "power2.out" None, None);
      (gsap.mkTween gsap.Board [(gsap.Rotation, deg2rad (r + of_Z 87)%js)]
         (decimal 2 1) "power1.inOut" None, None);
      (gsap.mkTween gsap.Board [(gsap.Rotation, deg2rad (r + of_Z 90)%js)]
         (decimal 3 1) "elastic.out(1, 0.5)" None, None) ].

End RotationOnly.

(** * Properties *)

(** Number arithmetic stays folded while the operations are unfolded. *)
Arguments JS.add : simpl never.
Arguments JS.mul : simpl never.
Arguments JS.div : simpl never.
Arguments JS.strict_eq : simpl never.
Arguments JS.of_Z : simpl never.
Arguments JS.decimal : simpl never.

(** ** Number literals and constants *)

Example of_Z_90 : of_Z 90 = S754_finite false 6333186975989760 (-46).
Proof. vm_compute. reflexivity. Qed.

Example decimal_0_90 : decimal 90 2 = S754_finite false 8106479329266893 (-53).
Proof. vm_compute. reflexivity. Qed.

Example decimal_0_05 : decimal 5 2 = S754_finite false 7205759403792794 (-57).
Proof. vm_compute. reflexivity. Qed.

Example deg_factor : (Math_PI / of_Z 180)%js = S754_finite false 5030569068109113 (-58).
Proof. vm_compute. reflexivity. Qed.

Example floor_25_9 : Math_floor (decimal 259 1) = of_Z 25.
Proof. vm_compute. reflexivity. Qed.

(** ** The timeline handed to the library *)

Lemma add_child_last (l : list gsap.Animation) (tl : gsap.Timeline)
  (child : gsap.Tween * option string) :
  gsap.add_child (List.length l) child (l ++ [gsap.OfTimeline tl]) =
  l ++ [gsap.OfTimeline
          (gsap.mkTimeline (gsap.tl_onComplete tl) (gsap.children tl ++ [child]))].
Proof.
  induction l as [|a l IH]; simpl.
  - reflexivity.
  - now rewrite IH.
Qed.

Lemma new_animations_app (w : World) (c : Component)
  (added : list gsap.Animation) (log : list (string * Error)) :
  new_animations w (mkWorld c (animations w ++ added) log) = added.
Proof.
  unfold new_animations; simpl.
  induction (animations w) as [|a l IH]; simpl; auto.
Qed.

Lemma new_animations_same (w : World) : new_animations w w = [].
Proof.
  unfold new_animations.
  induction (animations w) as [|a l IH]; simpl; auto.
Qed.

Lemma createRotationAnimation_builds (gsap_throws : nat -> option Error)
  (w : World) (b : PIXI.Container) :
  (forall n, gsap_throws n = None) ->
  boardContainer (comp w) = Some b ->
  createRotationAnimation gsap_throws w =
  (Normal (List.length (animations w)),
   mkWorld
     (if ((PIXI.scale_x b === of_Z 0) || (PIXI.scale_y b === of_Z 0))%js
      then set_boardContainer (Some (scale_guard b)) (comp w)
      else comp w)
     (animations w ++
      [gsap.OfTimeline
         (gsap.mkTimeline
            (Some (rotation_onComplete (currentRotation (comp w)) (PIXI.y b)))
            (rotation_tweens (currentRotation (comp w)) (PIXI.y b)))])
     (console w)).
Proof.
  intros Hok Hb.
  destruct w as [c anims log]; simpl in *.
  unfold createRotationAnimation, bind, get_comp; simpl.
  rewrite Hb.
  unfold scale_guard.
  destruct ((PIXI.scale_x b === of_Z 0) || (PIXI.scale_y b === of_Z 0))%js;
    unfold bind, modify_board, modify_comp, ret, gsap_timeline, timeline_to, gsap_call;
    simpl; rewrite ?Hok, ?Hb; simpl;
    repeat (rewrite (add_child_last anims); simpl);
    reflexivity.
Qed.

Lemma rotateBoard_starts (gsap_throws : nat -> option Error)
  (w : World) (b : PIXI.Container) :
  (forall n, gsap_throws n = None) ->
  boardContainer (comp w) = Some b ->
  activated (comp w) = true ->
  rotateBoard gsap_throws w =
  (Normal tt,
   mkWorld
     (if ((PIXI.scale_x b === of_Z 0) || (PIXI.scale_y b === of_Z 0))%js
      then set_boardContainer (Some (scale_guard b)) (comp w)
      else comp w)
     (animations w ++
      [gsap.OfTimeline
         (gsap.mkTimeline
            (Some (rotation_onComplete (currentRotation (comp w)) (PIXI.y b)))
            (rotation_tweens (currentRotation (comp w)) (PIXI.y b)))])
     (console w)).
Proof.
  intros Hok Hb Hact.
  unfold rotateBoard, bind at 1, get_comp.
  rewrite Hb, Hact; simpl.
  unfold try_catch, bind.
  rewrite (createRotationAnimation_builds gsap_throws w b Hok Hb).
  reflexivity.
Qed.

(** What the rotation timeline leaves behind when it finishes in a
    component whose board is [b']: the callback overwrites whatever the
    last frames wrote. *)
Lemma finish_rotation_timeline (last_frame : number -> number -> number)
  (startRotation startY : number) (c' : Component) (b' : PIXI.Container) :
  boardContainer c' = Some b' ->
  finish_timeline last_frame
    (gsap.mkTimeline (Some (rotation_onComplete startRotation startY))
       (rotation_tweens startRotation startY)) c' =
  set_currentRotation (startRotation + ANIMATION_CONFIG.FINAL_ROTATION)%js
    (set_boardContainer
       (Some (PIXI.mkContainer (PIXI.x b') startY
                (deg2rad (startRotation + ANIMATION_CONFIG.FINAL_ROTATION)%js)
                ANIMATION_CONFIG.ZOOM_IN_SCALE ANIMATION_CONFIG.ZOOM_IN_SCALE
                (PIXI.pivot_x b') (PIXI.pivot_y b')))
       c').
Proof.
  intros Hb.
  destruct c'; simpl in Hb; subst.
  destruct b'.
  reflexivity.
Qed.

(** Replace a call of [rotateBoard] on a ready board by the world it
    produces. *)
Ltac start_rotation Hok Hb Hact :=
  rewrite (rotateBoard_starts _ _ _ Hok Hb Hact); simpl snd;
  rewrite ?new_animations_app.

(** ** Triggering the rotation *)

(** C2: a call of [rotateBoard] that starts an animation from tracked
    rotation [r] creates one timeline whose rotation targets are, in order,
    [r + 95], [r + 87] and [r + 90] degrees (stored in radians, as
    [d * (Math.PI / 180)]), and whose scale targets are first 0.90 and last
    1.0 on both axes. *)
Theorem rotateBoard_timeline_targets
  (gsap_throws : nat -> option Error) (w : World) (b : PIXI.Container) :
  (forall n, gsap_throws n = None) ->
  boardContainer (comp w) = Some b ->
  activated (comp w) = true ->
  let r := currentRotation (comp w) in
  exists tl,
    new_animations w (snd (rotateBoard gsap_throws w)) = [gsap.OfTimeline tl] /\
    targets_of gsap.Board gsap.Rotation tl =
      [deg2rad (r + of_Z 95)%js; deg2rad (r + of_Z 87)%js; deg2rad (r + of_Z 90)%js] /\
    targets_of gsap.BoardScale gsap.X tl = [decimal 90 2; of_Z 1] /\
    targets_of gsap.BoardScale gsap.Y tl = [decimal 90 2; of_Z 1].
Proof.
  intros Hok Hb Hact r.
  rewrite (rotateBoard_starts gsap_throws w b Hok Hb Hact); simpl.
  eexists; split.
  - apply new_animations_app.
  - repeat split; reflexivity.
Qed.

Lemma rotateBoard_timeline_targets_witness :
  exists tl,
    new_animations activated_world (snd (rotateBoard no_fault activated_world))
      = [gsap.OfTimeline tl] /\
    targets_of gsap.Board gsap.Rotation tl =
      [deg2rad (zero + of_Z 95)%js; deg2rad (zero + of_Z 87)%js;
       deg2rad (zero + of_Z 90)%js] /\
    targets_of gsap.BoardScale gsap.X tl = [decimal 90 2; of_Z 1] /\
    targets_of gsap.BoardScale gsap.Y tl = [decimal 90 2; of_Z 1].
Proof.
  exact (rotateBoard_timeline_targets no_fault activated_world
           (PIXI.mkContainer (CANVAS_WIDTH / of_Z 2)%js (CANVAS_HEIGHT / of_Z 2)%js
              (of_Z 0) one one (BOARD_WIDTH / of_Z 2)%js (BOARD_HEIGHT / of_Z 2)%js)
           (fun _ => eq_refl) eq_refl eq_refl).
Defined.

(** C3, as the source has it: with a working library, [rotateBoard] starts
    the rotation timeline (one timeline of six tweens) exactly when the
    board container is initialized and the feature is activated; when the
    container is missing or the feature is not activated the call changes
    nothing. *)
Theorem rotateBoard_animates_iff_ready
  (gsap_throws : nat -> option Error) (w : World) :
  (forall n, gsap_throws n = None) ->
  if isSome (boardContainer (comp w)) && activated (comp w)
  then exists tl,
         new_animations w (snd (rotateBoard gsap_throws w)) = [gsap.OfTimeline tl] /\
         List.length (gsap.children tl) = 6%nat /\
         fst (rotateBoard gsap_throws w) = Normal tt
  else rotateBoard gsap_throws w = (Normal tt, w).
Proof.
  intros Hok.
  destruct (boardContainer (comp w)) as [b|] eqn:Hb; simpl.
  - destruct (activated (comp w)) eqn:Hact.
    + rewrite (rotateBoard_starts gsap_throws w b Hok Hb Hact); simpl.
      eexists; split; [apply new_animations_app | split; reflexivity].
    + unfold rotateBoard, bind, get_comp. rewrite Hb, Hact. reflexivity.
  - unfold rotateBoard, bind, get_comp. rewrite Hb. reflexivity.
Qed.

Lemma rotateBoard_animates_iff_ready_witness :
  (exists tl,
     new_animations activated_world (snd (rotateBoard no_fault activated_world))
       = [gsap.OfTimeline tl] /\
     List.length (gsap.children tl) = 6%nat /\
     fst (rotateBoard no_fault activated_world) = Normal tt) /\
  rotateBoard no_fault mounted = (Normal tt, mounted).
Proof.
  split.
  - exact (rotateBoard_animates_iff_ready no_fault activated_world (fun _ => eq_refl)).
  - exact (rotateBoard_animates_iff_ready no_fault mounted (fun _ => eq_refl)).
Defined.

(** C3 fails as stated: on the mounted board, whose container is
    initialized, [rotateBoard] does nothing as long as the feature has not
    been activated. *)
Lemma rotateBoard_needs_activation :
  isSome (boardContainer (comp mounted)) = true /\
  rotateBoard no_fault mounted = (Normal tt, mounted) /\
  new_animations mounted (snd (rotateBoard no_fault mounted)) = [].
Proof.
  repeat split; reflexivity.
Qed.

(** C4: without a board container [rotateBoard] and [resetRotation] return
    at once and leave the whole world (the component's variables, the
    animations, the console) as it was. *)
Theorem operations_noop_without_container
  (gsap_throws : nat -> option Error) (w : World) :
  boardContainer (comp w) = None ->
  rotateBoard gsap_throws w = (Normal tt, w) /\
  resetRotation gsap_throws w = (Normal tt, w).
Proof.
  intros Hb.
  unfold rotateBoard, resetRotation, bind, get_comp.
  rewrite Hb.
  split; reflexivity.
Qed.

Lemma operations_noop_without_container_witness :
  let w := mkWorld (set_activated true initial_component) [] [] in
  rotateBoard third_call_fails w = (Normal tt, w) /\
  resetRotation third_call_fails w = (Normal tt, w).
Proof.
  exact (operations_noop_without_container third_call_fails
           (mkWorld (set_activated true initial_component) [] []) eq_refl).
Defined.

Lemma rotateBoard_eq (gsap_throws : nat -> option Error) (w : World) :
  rotateBoard gsap_throws w =
  if negb (isSome (boardContainer (comp w))) || negb (activated (comp w))
  then (Normal tt, w)
  else
    match createRotationAnimation gsap_throws w with
    | (Normal _, w') => (Normal tt, w')
    | (Throw e, w') =>
        (Normal tt,
         mkWorld (comp w') (animations w')
           (console w' ++ [("Failed to animate board rotation:", e)]))
    end.
Proof.
  unfold rotateBoard, bind, get_comp, try_catch, ret, console_error.
  destruct (negb (isSome (boardContainer (comp w))) || negb (activated (comp w)));
    [reflexivity|].
  destruct (createRotationAnimation gsap_throws w) as [[tl|e] w']; reflexivity.
Qed.

(** The page's own gate on [activated] repeats the component's. *)
Lemma App_rotateBoard_eq (gsap_throws : nat -> option Error) (w : World) :
  App.rotateBoard gsap_throws w = rotateBoard gsap_throws w.
Proof.
  unfold App.rotateBoard, bind, get_comp.
  destruct (activated (comp w)) eqn:Hact; [reflexivity|].
  rewrite rotateBoard_eq, Hact, orb_true_r. reflexivity.
Qed.

(** C5: [rotateBoard] always returns normally, whatever the library does;
    an exception that [createRotationAnimation] raises is caught and
    written to the console with the message of the source. *)
Theorem rotateBoard_never_throws
  (gsap_throws : nat -> option Error) (w : World) :
  fst (rotateBoard gsap_throws w) = Normal tt /\
  (forall e w1,
     isSome (boardContainer (comp w)) = true ->
     activated (comp w) = true ->
     createRotationAnimation gsap_throws w = (Throw e, w1) ->
     snd (rotateBoard gsap_throws w) =
       mkWorld (comp w1) (animations w1)
         (console w1 ++ [("Failed to animate board rotation:", e)])).
Proof.
  rewrite rotateBoard_eq.
  split.
  - destruct (negb (isSome (boardContainer (comp w))) || negb (activated (comp w)));
      [reflexivity|].
    destruct (createRotationAnimation gsap_throws w) as [[tl|e] w']; reflexivity.
  - intros e w1 Hb Hact Hc.
    rewrite Hb, Hact, Hc. reflexivity.
Qed.

Lemma rotateBoard_never_throws_witness :
  fst (rotateBoard third_call_fails activated_world) = Normal tt /\
  console (snd (rotateBoard third_call_fails activated_world)) =
    [("Failed to animate board rotation:", JsError "Cannot tween a null target")].
Proof.
  destruct (rotateBoard_never_throws third_call_fails activated_world) as [H1 H2].
  split.
  - exact H1.
  - rewrite (H2 (JsError "Cannot tween a null target")
               (snd (createRotationAnimation third_call_fails activated_world))
               eq_refl eq_refl eq_refl).
    reflexivity.
Defined.

(** ** The rotation run to completion *)

(** C1, as the source has it: a triggered rotation that runs to completion
    ends at the tracked rotation [r] it started from plus 90 degrees (so at
    90 degrees when it started from 0).  The completion handler writes the
    value itself: whatever the component looks like when the handler runs,
    and whatever the engine's last frames wrote, the board ends at
    [(r + 90) * (Math.PI / 180)] and the tracked rotation at [r + 90]. *)
Theorem rotation_ends_a_quarter_turn_on
  (last_frame : number -> number -> number)
  (gsap_throws : nat -> option Error) (w : World) (b : PIXI.Container) :
  (forall n, gsap_throws n = None) ->
  boardContainer (comp w) = Some b ->
  activated (comp w) = true ->
  let r := currentRotation (comp w) in
  exists tl,
    new_animations w (snd (rotateBoard gsap_throws w)) = [gsap.OfTimeline tl] /\
    (forall c' b',
       boardContainer c' = Some b' ->
       let c'' := finish_timeline last_frame tl c' in
       currentRotation c'' = (r + of_Z 90)%js /\
       option_map PIXI.rotation (boardContainer c'') =
         Some (deg2rad (r + of_Z 90)%js)) /\
    (r = of_Z 0 ->
       currentRotation (run_to_completion last_frame (rotateBoard gsap_throws) w)
         = of_Z 90).
Proof.
  intros Hok Hb Hact r.
  unfold run_to_completion.
  start_rotation Hok Hb Hact.
  eexists; split; [reflexivity | split].
  - intros c' b' Hb'.
    rewrite (finish_rotation_timeline last_frame _ _ c' b' Hb').
    split; reflexivity.
  - intros Hr. fold r. simpl.
    destruct ((PIXI.scale_x b === of_Z 0) || (PIXI.scale_y b === of_Z 0))%js.
    + rewrite (finish_rotation_timeline last_frame _ _
                 (set_boardContainer (Some (scale_guard b)) (comp w))
                 (scale_guard b) eq_refl).
      simpl. rewrite Hr. reflexivity.
    + rewrite (finish_rotation_timeline last_frame _ _ _ b Hb).
      simpl. rewrite Hr. reflexivity.
Qed.

Lemma rotation_ends_a_quarter_turn_on_witness :
  exists tl,
    new_animations activated_world (snd (rotateBoard no_fault activated_world))
      = [gsap.OfTimeline tl] /\
    (forall c' b',
       boardContainer c' = Some b' ->
       let c'' := finish_timeline exact_engine tl c' in
       currentRotation c'' = (of_Z 0 + of_Z 90)%js /\
       option_map PIXI.rotation (boardContainer c'') =
         Some (deg2rad (of_Z 0 + of_Z 90)%js)) /\
    (of_Z 0 = of_Z 0 ->
       currentRotation
         (run_to_completion exact_engine (rotateBoard no_fault) activated_world)
       = of_Z 90).
Proof.
  exact (rotation_ends_a_quarter_turn_on exact_engine no_fault activated_world
           (PIXI.mkContainer (CANVAS_WIDTH / of_Z 2)%js (CANVAS_HEIGHT / of_Z 2)%js
              (of_Z 0) one one (BOARD_WIDTH / of_Z 2)%js (BOARD_HEIGHT / of_Z 2)%js)
           (fun _ => eq_refl) eq_refl eq_refl).
Defined.

(** C1 fails as stated: the second rotation of a board that has already
    made a quarter turn ends at 180 degrees, not at 90. *)
Lemma second_rotation_ends_at_180 :
  currentRotation (comp once_rotated) = of_Z 90 /\
  currentRotation
    (run_to_completion exact_engine (rotateBoard no_fault) once_rotated)
  = of_Z 180 /\
  currentRotation
    (run_to_completion exact_engine (rotateBoard no_fault) once_rotated)
  <> of_Z 90 /\
  option_map PIXI.rotation
    (boardContainer
       (run_to_completion exact_engine (rotateBoard no_fault) once_rotated))
  <> Some (deg2rad (of_Z 90)).
Proof.
  repeat split; try (vm_compute; reflexivity); vm_compute; discriminate.
Qed.

(** C8: a triggered rotation that runs to completion ends at scale 1.0 on
    both axes; the completion handler writes the scale itself, whatever the
    last frames left. *)
Theorem rotation_ends_at_scale_one
  (last_frame : number -> number -> number)
  (gsap_throws : nat -> option Error) (w : World) (b : PIXI.Container) :
  (forall n, gsap_throws n = None) ->
  boardContainer (comp w) = Some b ->
  activated (comp w) = true ->
  exists tl,
    new_animations w (snd (rotateBoard gsap_throws w)) = [gsap.OfTimeline tl] /\
    forall c' b',
      boardContainer c' = Some b' ->
      let c'' := finish_timeline last_frame tl c' in
      option_map PIXI.scale_x (boardContainer c'') = Some (of_Z 1) /\
      option_map PIXI.scale_y (boardContainer c'') = Some (of_Z 1).
Proof.
  intros Hok Hb Hact.
  start_rotation Hok Hb Hact.
  eexists; split; [reflexivity|].
  intros c' b' Hb'.
  rewrite (finish_rotation_timeline last_frame _ _ c' b' Hb').
  split; reflexivity.
Qed.

Lemma rotation_ends_at_scale_one_witness :
  exists tl,
    new_animations mid_flight (snd (rotateBoard no_fault mid_flight))
      = [gsap.OfTimeline tl] /\
    forall c' b',
      boardContainer c' = Some b' ->
      let c'' := finish_timeline (fun v e => (e + decimal 1 6)%js) tl c' in
      option_map PIXI.scale_x (boardContainer c'') = Some (of_Z 1) /\
      option_map PIXI.scale_y (boardContainer c'') = Some (of_Z 1).
Proof.
  exact (rotation_ends_at_scale_one (fun v e => (e + decimal 1 6)%js)
           no_fault mid_flight
           (PIXI.mkContainer (CANVAS_WIDTH / of_Z 2)%js
              ((CANVAS_HEIGHT / of_Z 2) + of_Z (-80))%js
              (deg2rad (of_Z 0 + of_Z 95)%js) (decimal 90 2) (decimal 90 2)
              (BOARD_WIDTH / of_Z 2)%js (BOARD_HEIGHT / of_Z 2)%js)
           (fun _ => eq_refl) eq_refl eq_refl).
Defined.

(** C9, as the source has it: a triggered rotation that runs to completion
    leaves the board's [y] at the value it had when the animation started.
    Of the board's fields only the rotation and the scale are different at
    the end: the rotation is [(r + 90) * (Math.PI / 180)], the scale is 1.0
    on both axes, and [x], [y] and the pivot are as before; so when the
    scale was 1.0 before the trigger only the rotation field differs.  Of
    the component's own variables only the tracked rotation changes. *)
Theorem rotation_restores_position
  (last_frame : number -> number -> number)
  (gsap_throws : nat -> option Error) (w : World) (b : PIXI.Container) :
  (forall n, gsap_throws n = None) ->
  boardContainer (comp w) = Some b ->
  activated (comp w) = true ->
  let r := currentRotation (comp w) in
  let final := run_to_completion last_frame (rotateBoard gsap_throws) w in
  let b_end :=
    PIXI.scale_set (of_Z 1) (of_Z 1) (PIXI.set_rotation (deg2rad (r + of_Z 90)%js) b) in
  final = set_currentRotation (r + of_Z 90)%js (set_boardContainer (Some b_end) (comp w)) /\
  PIXI.y b_end = PIXI.y b /\
  (PIXI.scale_x b = of_Z 1 -> PIXI.scale_y b = of_Z 1 ->
   b_end = PIXI.set_rotation (deg2rad (r + of_Z 90)%js) b).
Proof.
  intros Hok Hb Hact r final b_end.
  split; [|split].
  - unfold final, run_to_completion.
    start_rotation Hok Hb Hact; simpl.
    destruct ((PIXI.scale_x b === of_Z 0) || (PIXI.scale_y b === of_Z 0))%js.
    + rewrite (finish_rotation_timeline last_frame _ _
                 (set_boardContainer (Some (scale_guard b)) (comp w))
                 (scale_guard b) eq_refl).
      unfold scale_guard.
      destruct ((PIXI.scale_x b === of_Z 0) || (PIXI.scale_y b === of_Z 0))%js;
        destruct b; reflexivity.
    + rewrite (finish_rotation_timeline last_frame _ _ _ b Hb).
      destruct b; reflexivity.
  - reflexivity.
  - intros Hx Hy. destruct b; simpl in *. subst. reflexivity.
Qed.

Lemma rotation_restores_position_witness :
  run_to_completion exact_engine (rotateBoard no_fault) activated_world =
  set_currentRotation (of_Z 90)
    (set_boardContainer
       (Some (PIXI.mkContainer (CANVAS_WIDTH / of_Z 2)%js (CANVAS_HEIGHT / of_Z 2)%js
                (deg2rad (of_Z 90)) one one
                (BOARD_WIDTH / of_Z 2)%js (BOARD_HEIGHT / of_Z 2)%js))
       (comp activated_world)).
Proof.
  exact (proj1
           (rotation_restores_position exact_engine no_fault activated_world
              (PIXI.mkContainer (CANVAS_WIDTH / of_Z 2)%js (CANVAS_HEIGHT / of_Z 2)%js
                 (of_Z 0) one one (BOARD_WIDTH / of_Z 2)%js (BOARD_HEIGHT / of_Z 2)%js)
              (fun _ => eq_refl) eq_refl eq_refl)).
Defined.

(** C9 fails as stated: a rotation triggered in the middle of the previous
    one, when the board is zoomed out to 0.90, runs to completion with [y]
    back at its value at the trigger but with the scale at 1.0, so the
    scale differs from the pre-animation state as well as the rotation. *)
Lemma retriggered_rotation_changes_scale :
  option_map PIXI.scale_x (boardContainer (comp mid_flight)) = Some (decimal 90 2) /\
  option_map PIXI.y
    (boardContainer (run_to_completion exact_engine (rotateBoard no_fault) mid_flight))
  = option_map PIXI.y (boardContainer (comp mid_flight)) /\
  option_map PIXI.scale_x
    (boardContainer (run_to_completion exact_engine (rotateBoard no_fault) mid_flight))
  = Some (of_Z 1) /\
  option_map PIXI.scale_x
    (boardContainer (run_to_completion exact_engine (rotateBoard no_fault) mid_flight))
  <> option_map PIXI.scale_x (boardContainer (comp mid_flight)).
Proof.
  repeat split; try (vm_compute; reflexivity); vm_compute; discriminate.
Qed.

(** ** The rotation property and the reset *)

Lemma set_rotation_changed (r : number) (w : World) :
  same_value (rotation (comp w)) r = false ->
  set_rotation r w =
    (Normal tt, set_comp (rotation_effect (set_rotation_prop (Some r) (comp w))) w).
Proof.
  intros Hnew. unfold set_rotation, bind, get_comp. rewrite Hnew.
  destruct w as [c anims log]. reflexivity.
Qed.

Lemma set_rotation_unchanged (r : number) (w : World) :
  same_value (rotation (comp w)) r = true ->
  set_rotation r w = (Normal tt, w).
Proof.
  intros Hsame. unfold set_rotation, bind, get_comp. rewrite Hsame. reflexivity.
Qed.

Lemma rotation_effect_runs (r : number) (c : Component) (b : PIXI.Container) :
  rotation c = Some r ->
  boardContainer c = Some b ->
  rotation_effect c =
    set_currentRotation r
      (set_boardContainer
         (Some (PIXI.set_rotation (r * (Math_PI / of_Z 180))%js b)) c).
Proof.
  intros Hr Hb. unfold rotation_effect. rewrite Hr, Hb. reflexivity.
Qed.

Lemma rotation_effect_without_board (c : Component) :
  boardContainer c = None -> rotation_effect c = c.
Proof.
  intros Hb. unfold rotation_effect. rewrite Hb. destruct (rotation c); reflexivity.
Qed.




(** C7: with a board container, [resetRotation] creates one tween of the
    board's rotation to 0; when that tween runs to completion (its last
    frame landing on the end value 0) the board's rotation is 0 and the
    tracked rotation is 0, whatever they were. *)
Theorem reset_returns_to_neutral
  (last_frame : number -> number -> number)
  (gsap_throws : nat -> option Error) (w : World) (b : PIXI.Container) :
  gsap_throws 0%nat = None ->
  (forall v, last_frame v (of_Z 0) = of_Z 0) ->
  boardContainer (comp w) = Some b ->
  exists tw,
    resetRotation gsap_throws w =
      (Normal tt, mkWorld (comp w) (animations w ++ [gsap.OfTween tw]) (console w)) /\
    (forall c' b',
       boardContainer c' = Some b' ->
       let c'' := finish_tween last_frame tw c' in
       boardContainer c'' = Some (PIXI.set_rotation (of_Z 0) b') /\
       currentRotation c'' = of_Z 0) /\
    let final := run_to_completion last_frame (resetRotation gsap_throws) w in
    boardContainer final = Some (PIXI.set_rotation (of_Z 0) b) /\
    currentRotation final = of_Z 0.
Proof.
  intros Hok Hland Hb.
  assert (Hrun : resetRotation gsap_throws w =
            (Normal tt,
             mkWorld (comp w)
               (animations w ++
                [gsap.OfTween
                   (gsap.mkTween gsap.Board [(gsap.Rotation, of_Z 0)]
                      ANIMATION_CONFIG.DURATION.RESET ANIMATION_CONFIG.EASING.RESET
                      (Some (set_currentRotation (of_Z 0))))])
               (console w))).
  { unfold resetRotation, bind, get_comp, gsap_to, gsap_call.
    rewrite Hb, Hok. reflexivity. }
  assert (Hfin : forall c' b',
            boardContainer c' = Some b' ->
            finish_tween last_frame
              (gsap.mkTween gsap.Board [(gsap.Rotation, of_Z 0)]
                 ANIMATION_CONFIG.DURATION.RESET ANIMATION_CONFIG.EASING.RESET
                 (Some (set_currentRotation (of_Z 0)))) c' =
            set_currentRotation (of_Z 0)
              (set_boardContainer (Some (PIXI.set_rotation (of_Z 0) b')) c')).
  { intros c' b' Hb'.
    unfold finish_tween, render_end; simpl.
    rewrite Hb'; simpl. rewrite Hland. reflexivity. }
  eexists; split; [exact Hrun | split].
  - intros c' b' Hb'. rewrite (Hfin c' b' Hb'). split; reflexivity.
  - unfold run_to_completion. rewrite Hrun; simpl snd.
    rewrite new_animations_app; cbn [fold_left finish comp].
    rewrite (Hfin (comp w) b Hb). split; reflexivity.
Qed.

Lemma reset_returns_to_neutral_witness :
  let final := run_to_completion exact_engine (resetRotation no_fault) once_rotated in
  option_map PIXI.rotation (boardContainer (comp once_rotated)) = Some (deg2rad (of_Z 90)) /\
  option_map PIXI.rotation (boardContainer final) = Some (of_Z 0) /\
  currentRotation final = of_Z 0.
Proof.
  destruct (reset_returns_to_neutral exact_engine no_fault once_rotated
              (PIXI.mkContainer (CANVAS_WIDTH / of_Z 2)%js (CANVAS_HEIGHT / of_Z 2)%js
                 (deg2rad (of_Z 90)) one one
                 (BOARD_WIDTH / of_Z 2)%js (BOARD_HEIGHT / of_Z 2)%js)
              eq_refl (fun _ => eq_refl) eq_refl) as [tw [_ [_ [H1 H2]]]].
  split; [reflexivity | split].
  - rewrite H1. reflexivity.
  - exact H2.
Defined.
(** ** Rounding of a product

    [x * y] on finite numbers rounds the exact product to 53 bits.  The
    lemmas below bound the rounded mantissa from above: shifting [k] bits
    out keeps [m * 2^k], plus half a unit when the round bit is set, below
    the mantissa shifted. *)

Lemma kept_shr_1 (rec : shr_record) (k bound : Z) :
  0 <= k -> kept rec k bound -> kept (shr_1 rec) (k + 1) bound.
Proof.
  intros Hk [Hm Hb].
  assert (Hp : 0 < 2 ^ k) by (apply Z.pow_pos_nonneg; lia).
  assert (Hs : 2 ^ (k + 1) = 2 * 2 ^ k) by (rewrite Z.pow_add_r by lia; lia).
  destruct rec as [m r s]; simpl in Hm, Hb.
  unfold kept.
  destruct m as [|p|p]; [| destruct p as [p|p|] |];
    simpl shr_1; cbn [shr_m shr_r]; rewrite ?Hs;
    try (destruct r; lia).
Qed.

Lemma kept_iter_pos (p : positive) :
  forall (rec : shr_record) (k bound : Z),
    0 <= k -> kept rec k bound ->
    kept (iter_pos shr_1 p rec) (k + Z.pos p) bound.
Proof.
  induction p as [p IH|p IH|]; intros rec k bound Hk H; simpl iter_pos.
  - replace (k + Z.pos p~1) with (k + 1 + Z.pos p + Z.pos p) by lia.
    apply IH; [lia|]. apply IH; [lia|]. now apply kept_shr_1.
  - replace (k + Z.pos p~0) with (k + Z.pos p + Z.pos p) by lia.
    apply IH; [lia|]. now apply IH.
  - now apply kept_shr_1.
Qed.

(** Shifting by [n] positions from an exact record. *)
Lemma shr_kept (m e n : Z) :
  0 <= m ->
  exists k,
    k = Z.max n 0 /\
    snd (shr (Build_shr_record m false false) e n) = e + k /\
    kept (fst (shr (Build_shr_record m false false) e n)) k (2 * m).
Proof.
  intros Hm.
  assert (H0 : kept (Build_shr_record m false false) 0 (2 * m)).
  { unfold kept; simpl. lia. }
  destruct n as [|p|p]; simpl shr.
  - exists 0; split; [reflexivity | split; [simpl; lia | exact H0]].
  - exists (Z.pos p); split; [reflexivity | split; [reflexivity |]].
    apply (kept_iter_pos p _ 0 (2 * m)); [lia | exact H0].
  - exists 0; split; [reflexivity | split; [simpl; lia | exact H0]].
Qed.

Lemma round_nearest_even_le (rec : shr_record) :
  shr_m rec <= round_nearest_even (shr_m rec) (loc_of_shr_record rec)
            <= shr_m rec + (if shr_r rec then 1 else 0).
Proof.
  destruct rec as [m [|] [|]]; simpl; try lia.
  destruct (Z.even m); lia.
Qed.

Lemma digits2_pos_size (p : positive) : digits2_pos p = Pos.size p.
Proof.
  induction p; simpl; congruence.
Qed.

Lemma Zdigits2_le (m n : Z) :
  0 <= n -> 0 <= m < 2 ^ n -> 0 <= Zdigits2 m <= n.
Proof.
  intros Hn [Hm Hlt].
  destruct m as [|p|p]; simpl; try lia.
  rewrite digits2_pos_size.
  pose proof (Pos.size_le p) as Hs.
  assert (H2 : 2 ^ Z.pos (Pos.size p) <= 2 * Z.pos p).
  { change 2 with (Z.pos 2) at 1. rewrite <- Pos2Z.inj_pow.
    change (2 * Z.pos p) with (Z.pos p~0). now apply Pos2Z.pos_le_pos. }
  split; [lia|].
  assert (H3 : 2 ^ Z.pos (Pos.size p) < 2 ^ (n + 1)).
  { rewrite (Z.pow_add_r 2 n 1) by lia. lia. }
  apply Z.pow_lt_mono_r_iff in H3; lia.
Qed.

Lemma pos_lt_pow_digits (p : positive) : Z.pos p < 2 ^ Z.pos (digits2_pos p).
Proof.
  rewrite digits2_pos_size.
  pose proof (Pos.size_gt p) as H.
  change 2 with (Z.pos 2). rewrite <- Pos2Z.inj_pow.
  now apply Pos2Z.pos_lt_pos.
Qed.

Lemma fexp_binary64 (x : Z) : fexp prec emax x = Z.max (x - 53) (-1074).
Proof. reflexivity. Qed.

(** The rounded product of a positive mantissa [M] at exponent [E] (in the
    range the products [u * 26] with [u < 1] live in) is a zero or a
    positive finite number whose mantissa, brought back to exponent [E],
    exceeds [M] by at most half of [2^53]. *)
Lemma binary_round_aux_upper (M : positive) (E : Z) :
  Z.pos M < 2 ^ 106 ->
  -1122 <= E <= -100 ->
  binary_round_aux prec emax false (Z.pos M) E loc_Exact = S754_zero false \/
  exists m K,
    0 <= K /\
    binary_round_aux prec emax false (Z.pos M) E loc_Exact
      = S754_finite false m (E + K) /\
    2 * Z.pos m * 2 ^ K <= 2 * Z.pos M + 2 ^ 53.
Proof.
  intros HM HE.
  unfold binary_round_aux, shr_fexp.
  change (shr_record_of_loc (Z.pos M) loc_Exact)
    with (Build_shr_record (Z.pos M) false false).
  rewrite fexp_binary64.
  pose proof (Zdigits2_le (Z.pos M) 106 ltac:(lia) ltac:(lia)) as Hd.
  set (n1 := Z.max (Zdigits2 (Z.pos M) + E - 53) (-1074) - E).
  destruct (shr_kept (Z.pos M) E n1 ltac:(lia)) as [k [Hk [He [Hm1 Hb1]]]].
  destruct (shr (Build_shr_record (Z.pos M) false false) E n1) as [rec1 E1].
  cbn [fst snd] in He, Hm1, Hb1. subst E1.
  pose proof (round_nearest_even_le rec1) as HR.
  set (R := round_nearest_even (shr_m rec1) (loc_of_shr_record rec1)) in *.
  change (shr_record_of_loc R loc_Exact) with (Build_shr_record R false false).
  rewrite fexp_binary64.
  assert (Hk53 : 0 <= k <= 53) by (subst k n1; lia).
  assert (Hpk : 0 < 2 ^ k) by (apply Z.pow_pos_nonneg; lia).
  assert (Hpk53 : 2 ^ k <= 2 ^ 53) by (apply Z.pow_le_mono_r; lia).
  assert (Hm1M : shr_m rec1 <= Z.pos M) by (destruct (shr_r rec1); nia).
  assert (HR0 : 0 <= R) by lia.
  assert (HRb : 2 * R * 2 ^ k <= 2 * Z.pos M + 2 ^ k)
    by (destruct (shr_r rec1); nia).
  assert (HRd : 0 <= Zdigits2 R <= 107).
  { apply Zdigits2_le; [lia|]. split; [lia|].
    change (2 ^ 107) with (2 * 2 ^ 106). destruct (shr_r rec1); lia. }
  set (n2 := Z.max (Zdigits2 R + (E + k) - 53) (-1074) - (E + k)).
  destruct (shr_kept R (E + k) n2 HR0) as [k2 [Hk2 [He2 [Hm2 Hb2]]]].
  destruct (shr (Build_shr_record R false false) (E + k) n2) as [rec2 E2].
  cbn [fst snd] in He2, Hm2, Hb2. subst E2.
  assert (Hk2' : 0 <= k2) by lia.
  assert (Hpk2 : 0 < 2 ^ k2) by (apply Z.pow_pos_nonneg; lia).
  destruct (shr_m rec2) as [|m|m] eqn:Hm; [left; reflexivity | right | lia].
  assert (Hexp : (E + k + k2 <=? emax - prec) = true).
  { apply Z.leb_le. change (emax - prec) with 971. subst k2 n2. lia. }
  rewrite Hexp.
  exists m, (k + k2).
  split; [lia | split; [f_equal; lia |]].
  rewrite Z.pow_add_r by lia.
  assert (H1 : 2 * Z.pos m * 2 ^ k2 <= 2 * R) by (destruct (shr_r rec2); lia).
  nia.
Qed.

Lemma symbols_count :
  of_Z (Z.of_nat (List.length SYMBOLS)) = S754_finite false 7318349394477056 (-48).
Proof. vm_compute. reflexivity. Qed.

(** [x < y] on two positive finite numbers, read on their fields. *)
Lemma finite_lt_inv (m n : positive) (e f : Z) :
  SFltb (S754_finite false m e) (S754_finite false n f) = true ->
  e < f \/ (e = f /\ Z.pos m < Z.pos n).
Proof.
  unfold SFltb, SFcompare.
  destruct (Z.compare_spec e f) as [Heq|Hlt|Hgt].
  - intros H. right. split; [exact Heq|].
    apply Pos2Z.pos_lt_pos. unfold Pos.lt, Pos.compare.
    destruct (Pos.compare_cont Eq m n); [discriminate | reflexivity | discriminate].
  - intros _. now left.
  - intros H. discriminate H.
Qed.

(** What membership in the unit interval says about a number. *)
Lemma in_unit_interval_inv (u : number) :
  in_unit_interval u = true ->
  (exists s, u = S754_zero s) \/
  exists m e,
    u = S754_finite false m e /\
    -1074 <= e <= -52 /\ Z.pos m < 2 ^ 53 /\ Z.pos m < 2 ^ (- e).
Proof.
  unfold in_unit_interval, JS.le, JS.lt.
  replace (of_Z 0) with (S754_zero false) by (vm_compute; reflexivity).
  replace (of_Z 1) with (S754_finite false 4503599627370496 (-52))
    by (vm_compute; reflexivity).
  intros H.
  apply andb_true_iff in H; destruct H as [H Hlt].
  apply andb_true_iff in H; destruct H as [Hv Hle].
  destruct u as [s|s| |s m e].
  - left; now exists s.
  - destruct s; discriminate.
  - discriminate.
  - right. exists m, e.
    cbv beta iota delta [SFleb SFcompare] in Hle.
    destruct s; [discriminate|].
    apply finite_lt_inv in Hlt.
    cbv beta iota delta [valid_binary bounded canonical_mantissa] in Hv.
    apply andb_true_iff in Hv; destruct Hv as [Hc _].
    apply Z.eqb_eq in Hc. rewrite fexp_binary64 in Hc.
    pose proof (pos_lt_pow_digits m) as Hd.
    assert (Hd53 : Z.pos (digits2_pos m) <= 53) by lia.
    assert (Hm53 : Z.pos m < 2 ^ 53).
    { eapply Z.lt_le_trans; [exact Hd|]. apply Z.pow_le_mono_r; lia. }
    split; [reflexivity|].
    destruct Hlt as [Hlt | [-> Hlt]].
    + split; [lia | split; [exact Hm53|]].
      eapply Z.lt_le_trans; [exact Hm53|]. apply Z.pow_le_mono_r; lia.
    + split; [lia | split; [exact Hm53|]].
      exact Hlt.
Qed.

(** The number [Math.floor] returns for an integer value in [0, 26) indexes
    the element at that position. *)
Lemma array_index_of_floor (q : Z) :
  0 <= q < 26 ->
  array_index
    (match q with
     | 0 => S754_zero false
     | _ => binary_normalize prec emax q 0 false
     end) = Some (Z.to_nat q).
Proof.
  intros Hq.
  assert (H : exists n, (n < 26)%nat /\ q = Z.of_nat n)
    by (exists (Z.to_nat q); lia).
  destruct H as [n [Hn ->]].
  do 26 (destruct n as [|n]; [vm_compute; reflexivity|]).
  lia.
Qed.

(** The index drawn by one iteration of the loop lies in [0, 25]. *)
Lemma random_index_in_range (u : number) :
  in_unit_interval u = true ->
  exists k,
    (k < 26)%nat /\
    array_index (Math_floor (u * of_Z (Z.of_nat (List.length SYMBOLS)))%js) = Some k.
Proof.
  intros Hu.
  rewrite symbols_count.
  destruct (in_unit_interval_inv u Hu) as [[s ->] | [m [e [-> [He [Hm53 Hm]]]]]].
  - exists 0%nat. split; [lia | reflexivity].
  - unfold JS.mul, SFmul. cbn [xorb].
    assert (HM : Z.pos (m * 7318349394477056) < 2 ^ 106).
    { rewrite Pos2Z.inj_mul. change (2 ^ 106) with (2 ^ 53 * 2 ^ 53).
      apply Z.mul_lt_mono_nonneg; [lia | exact Hm53 | lia | reflexivity]. }
    destruct (binary_round_aux_upper (m * 7318349394477056) (e + -48) HM ltac:(lia))
      as [-> | [m' [K [HK [-> Hb]]]]].
    + exists 0%nat. split; [lia | reflexivity].
    + rewrite Pos2Z.inj_mul in Hb.
      assert (Hpe : 0 < 2 ^ (- e)) by (apply Z.pow_pos_nonneg; lia).
      assert (HpK : 0 < 2 ^ K) by (apply Z.pow_pos_nonneg; lia).
      assert (Hlt : Z.pos m' * 2 ^ K < 7318349394477056 * 2 ^ (- e)).
      { change (2 ^ 53) with 9007199254740992 in Hb. nia. }
      set (e' := e + -48 + K) in *.
      assert (Hq : 0 <=
                   (if 0 <=? e' then Z.pos m' * 2 ^ e' else Z.pos m' / 2 ^ (- e'))
                   < 26).
      { destruct (Z.leb_spec 0 e') as [Hpos|Hneg].
        - assert (Hpe' : 0 < 2 ^ e') by (apply Z.pow_pos_nonneg; lia).
          split; [nia|].
          assert (HKe : 2 ^ K = 2 ^ e' * 2 ^ (48 - e)).
          { rewrite <- Z.pow_add_r by lia. f_equal; lia. }
          assert (H48 : 2 ^ (48 - e) = 2 ^ 48 * 2 ^ (- e)).
          { rewrite <- Z.pow_add_r by lia. f_equal; lia. }
          rewrite HKe, H48 in Hlt.
          change (2 ^ 48) with 281474976710656 in Hlt.
          nia.
        - assert (Hpe' : 0 < 2 ^ (- e')) by (apply Z.pow_pos_nonneg; lia).
          split; [apply Z.div_pos; lia|].
          apply Z.div_lt_upper_bound; [lia|].
          assert (He48 : 2 ^ (48 - e) = 2 ^ K * 2 ^ (- e')).
          { rewrite <- Z.pow_add_r by lia. f_equal; lia. }
          assert (H48 : 2 ^ (48 - e) = 2 ^ 48 * 2 ^ (- e)).
          { rewrite <- Z.pow_add_r by lia. f_equal; lia. }
          change (2 ^ 48) with 281474976710656 in H48.
          nia. }
      unfold Math_floor, floorZ.
      set (q := if 0 <=? e' then Z.pos m' * 2 ^ e' else Z.pos m' / 2 ^ (- e')) in *.
      exists (Z.to_nat q).
      split; [lia|].
      apply (array_index_of_floor q Hq).
Qed.

(** ** The symbol grid *)

Lemma symbols_are_the_alphabet :
  List.length SYMBOLS = 26%nat /\
  NoDup SYMBOLS /\
  forallb is_uppercase_letter SYMBOLS = true.
Proof.
  split; [reflexivity | split; [| reflexivity]].
  unfold SYMBOLS; simpl.
  repeat (constructor; [simpl; intuition discriminate|]).
  constructor.
Qed.

Lemma fill_grid_length (Math_random : nat -> number) (count : nat) :
  forall (i : nat) (grid : list (option string)),
    List.length (fill_grid Math_random i count grid)
    = (List.length grid + count)%nat.
Proof.
  induction count as [|count IH]; intros i grid; simpl.
  - lia.
  - rewrite IH, length_app; simpl. lia.
Qed.

Lemma fill_grid_Forall (Math_random : nat -> number)
  (P : option string -> Prop) (count : nat) :
  (forall i,
     P (array_get SYMBOLS
          (Math_floor (Math_random i * of_Z (Z.of_nat (List.length SYMBOLS)))%js))) ->
  forall (i : nat) (grid : list (option string)),
    Forall P grid -> Forall P (fill_grid Math_random i count grid).
Proof.
  intros Hcell.
  induction count as [|count IH]; intros i grid Hgrid; simpl.
  - exact Hgrid.
  - apply IH. apply Forall_app. split; [exact Hgrid|].
    constructor; [apply Hcell | constructor].
Qed.

(** C10: whenever [Math.random()] returns numbers of [0, 1), the grid has
    exactly 25 cells (5 times 5) and every cell holds one of the 26
    uppercase letters A to Z. *)
Theorem generateSymbolGrid_fills_25_letters (Math_random : nat -> number) :
  (forall i, in_unit_interval (Math_random i) = true) ->
  List.length (generateSymbolGrid Math_random) = 25%nat /\
  Forall
    (fun cell =>
       exists s, cell = Some s /\ In s SYMBOLS /\ is_uppercase_letter s = true)
    (generateSymbolGrid Math_random).
Proof.
  intros Hrandom.
  unfold generateSymbolGrid.
  split.
  - rewrite fill_grid_length. reflexivity.
  - apply fill_grid_Forall; [| constructor].
    intros i.
    destruct (random_index_in_range (Math_random i) (Hrandom i)) as [k [Hk Hidx]].
    unfold array_get. rewrite Hidx.
    destruct (nth_error SYMBOLS k) as [s|] eqn:Hnth.
    + exists s. split; [reflexivity|].
      pose proof (nth_error_In _ _ Hnth) as Hin.
      split; [exact Hin|].
      destruct symbols_are_the_alphabet as [_ [_ Hup]].
      rewrite forallb_forall in Hup. now apply Hup.
    + apply nth_error_None in Hnth.
      destruct symbols_are_the_alphabet as [Hlen _]. lia.
Qed.

Lemma generateSymbolGrid_fills_25_letters_witness :
  let grid := generateSymbolGrid alternating_random in
  List.length grid = 25%nat /\
  Forall
    (fun cell =>
       exists s, cell = Some s /\ In s SYMBOLS /\ is_uppercase_letter s = true)
    grid.
Proof.
  apply (generateSymbolGrid_fills_25_letters alternating_random).
  intros i. unfold alternating_random.
  destruct (Nat.even i); vm_compute; reflexivity.
Defined.

(** A draw outside [0, 1) can leave a cell undefined: the bound on
    [Math.random()] is needed. *)
Example draw_of_one_is_undefined :
  hd_error (generateSymbolGrid (fun _ => of_Z 1)) = Some None.
Proof. vm_compute. reflexivity. Qed.

Example alternating_grid_head :
  firstn 4 (generateSymbolGrid alternating_random)
  = [Some "N"; Some "Z"; Some "N"; Some "Z"].
Proof. vm_compute. reflexivity. Qed.

(** * Further properties *)

(** ** Exceptions while the timeline is built *)

Lemma first_fault_none (gsap_throws : nat -> option Error) (count : nat) :
  forall from,
    (forall n, gsap_throws n = None) -> first_fault gsap_throws from count = None.
Proof.
  induction count as [|count IH]; intros from Hok; simpl.
  - reflexivity.
  - rewrite Hok. now apply IH.
Qed.

(** [createRotationAnimation] on a board, whatever the library does: the
    scale guard has run; the timeline exists unless the very first call
    threw, with the tweens added before the failing call. *)
Lemma createRotationAnimation_any (gsap_throws : nat -> option Error)
  (w : World) (b : PIXI.Container) :
  boardContainer (comp w) = Some b ->
  createRotationAnimation gsap_throws w =
  match first_fault gsap_throws 0 7 with
  | None =>
      (Normal (List.length (animations w)),
       mkWorld (after_guard (comp w))
         (animations w ++
          [gsap.OfTimeline (rotation_timeline (currentRotation (comp w)) (PIXI.y b) 6)])
         (console w))
  | Some (O, e) =>
      (Throw e, mkWorld (after_guard (comp w)) (animations w) (console w))
  | Some (S k, e) =>
      (Throw e,
       mkWorld (after_guard (comp w))
         (animations w ++
          [gsap.OfTimeline (rotation_timeline (currentRotation (comp w)) (PIXI.y b) k)])
         (console w))
  end.
Proof.
  intros Hb.
  destruct w as [c anims log]; simpl in *.
  unfold createRotationAnimation, bind, get_comp, after_guard; simpl.
  rewrite Hb.
  unfold first_fault, rotation_timeline.
  destruct ((PIXI.scale_x b === of_Z 0) || (PIXI.scale_y b === of_Z 0))%js;
    unfold bind, modify_board, modify_comp, ret, gsap_timeline, timeline_to, gsap_call;
    simpl; rewrite ?Hb; simpl;
    (destruct (gsap_throws 0%nat); [reflexivity|]); simpl;
    (destruct (gsap_throws 1%nat); [reflexivity|]); simpl;
    rewrite (add_child_last anims); simpl;
    (destruct (gsap_throws 2%nat); [reflexivity|]); simpl;
    rewrite (add_child_last anims); simpl;
    (destruct (gsap_throws 3%nat); [reflexivity|]); simpl;
    rewrite (add_child_last anims); simpl;
    (destruct (gsap_throws 4%nat); [reflexivity|]); simpl;
    rewrite (add_child_last anims); simpl;
    (destruct (gsap_throws 5%nat); [reflexivity|]); simpl;
    rewrite (add_child_last anims); simpl;
    (destruct (gsap_throws 6%nat); [reflexivity|]); simpl;
    rewrite (add_child_last anims); simpl;
    reflexivity.
Qed.

Lemma rotateBoard_any (gsap_throws : nat -> option Error)
  (w : World) (b : PIXI.Container) :
  boardContainer (comp w) = Some b ->
  activated (comp w) = true ->
  rotateBoard gsap_throws w =
  (Normal tt,
   match first_fault gsap_throws 0 7 with
   | None =>
       mkWorld (after_guard (comp w))
         (animations w ++
          [gsap.OfTimeline (rotation_timeline (currentRotation (comp w)) (PIXI.y b) 6)])
         (console w)
   | Some (O, e) =>
       mkWorld (after_guard (comp w)) (animations w)
         (console w ++ [("Failed to animate board rotation:", e)])
   | Some (S k, e) =>
       mkWorld (after_guard (comp w))
         (animations w ++
          [gsap.OfTimeline (rotation_timeline (currentRotation (comp w)) (PIXI.y b) k)])
         (console w ++ [("Failed to animate board rotation:", e)])
   end).
Proof.
  intros Hb Hact.
  rewrite rotateBoard_eq, Hb, Hact. cbn [isSome negb orb].
  rewrite (createRotationAnimation_any gsap_throws w b Hb).
  destruct (first_fault gsap_throws 0 7) as [[[|k] e]|]; reflexivity.
Qed.

(** When a rotation timeline finishes, complete or cut short, its handler
    has the last word on rotation, [y], scale and tracked rotation. *)
Lemma finish_rotation_timeline_any (last_frame : number -> number -> number)
  (startRotation startY : number) (k : nat) (c' : Component) (b' : PIXI.Container) :
  boardContainer c' = Some b' ->
  finish_timeline last_frame (rotation_timeline startRotation startY k) c' =
  set_currentRotation (startRotation + of_Z 90)%js
    (set_boardContainer
       (Some (PIXI.mkContainer (PIXI.x b') startY
                (deg2rad (startRotation + of_Z 90)%js)
                (of_Z 1) (of_Z 1)
                (PIXI.pivot_x b') (PIXI.pivot_y b')))
       c').
Proof.
  intros Hb.
  destruct c'; simpl in Hb; subst.
  destruct b'.
  do 7 (destruct k as [|k]; [reflexivity|]).
  reflexivity.
Qed.

Lemma finish_reset_tween (last_frame : number -> number -> number)
  (c' : Component) (b' : PIXI.Container) :
  boardContainer c' = Some b' ->
  finish_tween last_frame reset_tween c' =
  set_currentRotation (of_Z 0)
    (set_boardContainer
       (Some (PIXI.set_rotation (last_frame (PIXI.rotation b') (of_Z 0)) b')) c').
Proof.
  intros Hb.
  unfold finish_tween, render_end, reset_tween; simpl.
  rewrite Hb. reflexivity.
Qed.

Lemma resetRotation_any (gsap_throws : nat -> option Error)
  (w : World) (b : PIXI.Container) :
  boardContainer (comp w) = Some b ->
  resetRotation gsap_throws w =
  match gsap_throws 0%nat with
  | Some e => (Throw e, w)
  | None =>
      (Normal tt,
       mkWorld (comp w) (animations w ++ [gsap.OfTween reset_tween]) (console w))
  end.
Proof.
  intros Hb.
  unfold resetRotation, bind, get_comp, gsap_to, gsap_call.
  rewrite Hb; simpl.
  destruct (gsap_throws 0%nat); reflexivity.
Qed.

(** X1: if the library throws after the timeline has been created (any of
    the six [timeline.to] calls), [rotateBoard] logs the error, but the
    timeline is already playing with the tweens added so far and its
    completion handler; when it completes the board still ends a quarter
    turn on, at its starting [y] and at scale 1.0. *)
Theorem cut_short_timeline_still_completes
  (last_frame : number -> number -> number)
  (gsap_throws : nat -> option Error) (w : World) (b : PIXI.Container)
  (k : nat) (e : Error) :
  boardContainer (comp w) = Some b ->
  activated (comp w) = true ->
  first_fault gsap_throws 0 7 = Some (S k, e) ->
  let r := currentRotation (comp w) in
  let w' := snd (rotateBoard gsap_throws w) in
  (k < 6)%nat /\
  console w' = console w ++ [("Failed to animate board rotation:", e)] /\
  new_animations w w' = [gsap.OfTimeline (rotation_timeline r (PIXI.y b) k)] /\
  List.length (gsap.children (rotation_timeline r (PIXI.y b) k)) = k /\
  forall c' b',
    boardContainer c' = Some b' ->
    let c'' := finish_timeline last_frame (rotation_timeline r (PIXI.y b) k) c' in
    currentRotation c'' = (r + of_Z 90)%js /\
    boardContainer c'' =
      Some (PIXI.mkContainer (PIXI.x b') (PIXI.y b) (deg2rad (r + of_Z 90)%js)
              (of_Z 1) (of_Z 1) (PIXI.pivot_x b') (PIXI.pivot_y b')).
Proof.
  intros Hb Hact Hf r w'.
  assert (Hk : (k < 6)%nat).
  { revert Hf. simpl.
    repeat (match goal with
            | |- context [gsap_throws ?n] => destruct (gsap_throws n)
            end; [intros H; inversion H; lia|]).
    discriminate. }
  subst w'. rewrite (rotateBoard_any gsap_throws w b Hb Hact), Hf; cbn [snd console].
  split; [exact Hk | split; [reflexivity | split; [apply new_animations_app | split]]].
  - unfold rotation_timeline; simpl gsap.children.
    rewrite length_firstn. simpl. lia.
  - intros c' b' Hb'.
    rewrite (finish_rotation_timeline_any last_frame _ _ k c' b' Hb').
    split; reflexivity.
Qed.

Lemma cut_short_timeline_still_completes_witness :
  let w' := snd (rotateBoard third_call_fails activated_world) in
  (1 < 6)%nat /\
  console w' = console activated_world ++
    [("Failed to animate board rotation:", JsError "Cannot tween a null target")] /\
  new_animations activated_world w' =
    [gsap.OfTimeline (rotation_timeline (of_Z 0) (CANVAS_HEIGHT / of_Z 2)%js 1)] /\
  List.length
    (gsap.children (rotation_timeline (of_Z 0) (CANVAS_HEIGHT / of_Z 2)%js 1)) = 1%nat /\
  forall c' b',
    boardContainer c' = Some b' ->
    let c'' := finish_timeline exact_engine
                 (rotation_timeline (of_Z 0) (CANVAS_HEIGHT / of_Z 2)%js 1) c' in
    currentRotation c'' = (of_Z 0 + of_Z 90)%js /\
    boardContainer c'' =
      Some (PIXI.mkContainer (PIXI.x b') (CANVAS_HEIGHT / of_Z 2)%js
              (deg2rad (of_Z 0 + of_Z 90)%js)
              (of_Z 1) (of_Z 1) (PIXI.pivot_x b') (PIXI.pivot_y b')).
Proof.
  exact (cut_short_timeline_still_completes exact_engine third_call_fails
           activated_world
           (PIXI.mkContainer (CANVAS_WIDTH / of_Z 2)%js (CANVAS_HEIGHT / of_Z 2)%js
              (of_Z 0) one one (BOARD_WIDTH / of_Z 2)%js (BOARD_HEIGHT / of_Z 2)%js)
           1%nat (JsError "Cannot tween a null target")
           eq_refl eq_refl eq_refl).
Defined.

(** X2: [resetRotation] has no [try]: when [gsap.to] throws, the exception
    reaches the caller, nothing is logged and nothing else changes. *)
Theorem resetRotation_propagates_exception
  (gsap_throws : nat -> option Error) (w : World) (b : PIXI.Container) (e : Error) :
  boardContainer (comp w) = Some b ->
  gsap_throws 0%nat = Some e ->
  resetRotation gsap_throws w = (Throw e, w) /\
  fst (rotateBoard gsap_throws w) = Normal tt.
Proof.
  intros Hb He.
  rewrite (resetRotation_any gsap_throws w b Hb), He.
  split; [reflexivity|].
  rewrite rotateBoard_eq.
  destruct (negb (isSome (boardContainer (comp w))) || negb (activated (comp w)));
    [reflexivity|].
  destruct (createRotationAnimation gsap_throws w) as [[tl|e'] w']; reflexivity.
Qed.

Lemma resetRotation_propagates_exception_witness :
  resetRotation all_calls_fail activated_world
    = (Throw (JsError "gsap is not loaded"), activated_world) /\
  fst (rotateBoard all_calls_fail activated_world) = Normal tt.
Proof.
  exact (resetRotation_propagates_exception all_calls_fail activated_world
           (PIXI.mkContainer (CANVAS_WIDTH / of_Z 2)%js (CANVAS_HEIGHT / of_Z 2)%js
              (of_Z 0) one one (BOARD_WIDTH / of_Z 2)%js (BOARD_HEIGHT / of_Z 2)%js)
           (JsError "gsap is not loaded") eq_refl eq_refl).
Defined.

(** ** What the operations keep *)

Lemma after_guard_board (c : Component) (b : PIXI.Container) :
  boardContainer c = Some b ->
  exists b',
    boardContainer (after_guard c) = Some b' /\
    PIXI.x b' = PIXI.x b /\ PIXI.y b' = PIXI.y b /\
    PIXI.rotation b' = PIXI.rotation b /\
    PIXI.pivot_x b' = PIXI.pivot_x b /\ PIXI.pivot_y b' = PIXI.pivot_y b /\
    activated (after_guard c) = activated c /\
    rotation (after_guard c) = rotation c /\
    canvasContainer (after_guard c) = canvasContainer c /\
    pixiApp (after_guard c) = pixiApp c /\
    currentRotation (after_guard c) = currentRotation c /\
    originalBoardY (after_guard c) = originalBoardY c /\
    symbolGrid (after_guard c) = symbolGrid c /\
    (((PIXI.scale_x b === of_Z 0) || (PIXI.scale_y b === of_Z 0))%js = false ->
     after_guard c = c).
Proof.
  intros Hb. unfold after_guard. rewrite Hb.
  destruct ((PIXI.scale_x b === of_Z 0) || (PIXI.scale_y b === of_Z 0))%js.
  - eexists; split; [reflexivity|]. repeat split; try reflexivity. discriminate.
  - exists b. repeat split; try reflexivity. exact Hb.
Qed.

(** X3: [rotateBoard] only schedules: the call itself leaves the tracked
    rotation and the board's rotation and position as they are (the one
    thing it may write is a scale of 0, set to 1), and it creates at most
    one animation. *)
Theorem rotateBoard_defers_all_motion
  (gsap_throws : nat -> option Error) (w : World) :
  let w' := snd (rotateBoard gsap_throws w) in
  currentRotation (comp w') = currentRotation (comp w) /\
  option_map PIXI.rotation (boardContainer (comp w'))
    = option_map PIXI.rotation (boardContainer (comp w)) /\
  option_map PIXI.x (boardContainer (comp w'))
    = option_map PIXI.x (boardContainer (comp w)) /\
  option_map PIXI.y (boardContainer (comp w'))
    = option_map PIXI.y (boardContainer (comp w)) /\
  (forall b,
     boardContainer (comp w) = Some b ->
     ((PIXI.scale_x b === of_Z 0) || (PIXI.scale_y b === of_Z 0))%js = false ->
     comp w' = comp w) /\
  (List.length (animations w') <= List.length (animations w) + 1)%nat.
Proof.
  intros w'. subst w'.
  destruct (boardContainer (comp w)) as [b|] eqn:Hb.
  - destruct (activated (comp w)) eqn:Hact.
    + rewrite (rotateBoard_any gsap_throws w b Hb Hact); cbn [snd].
      destruct (after_guard_board (comp w) b Hb)
        as [b' [Hb' [Hx [Hy [Hr [_ [_ [_ [_ [_ [_ [Hcur [_ [_ Hsame]]]]]]]]]]]]]].
      assert (Hc : forall l log,
                comp (mkWorld (after_guard (comp w)) l log) = after_guard (comp w))
        by reflexivity.
      destruct (first_fault gsap_throws 0 7) as [[[|k] e]|];
        rewrite ?Hc, ?Hb', ?Hb; cbn [option_map animations];
        rewrite ?length_app; cbn [List.length];
        (repeat split; [exact Hcur | now rewrite Hr | now rewrite Hx | now rewrite Hy
                       | intros b1 Hb1 Hz; inversion Hb1; subst b1; now apply Hsame
                       | lia]).
    + rewrite rotateBoard_eq, Hb, Hact; cbn [isSome negb orb snd].
      rewrite ?Hb. repeat split; try reflexivity. lia.
  - rewrite rotateBoard_eq, Hb; cbn [isSome negb orb snd].
    rewrite ?Hb. repeat split; try reflexivity. lia.
Qed.

Lemma rotateBoard_defers_all_motion_witness :
  let w' := snd (rotateBoard no_fault collapsed_world) in
  currentRotation (comp w') = currentRotation (comp collapsed_world) /\
  option_map PIXI.y (boardContainer (comp w'))
    = option_map PIXI.y (boardContainer (comp collapsed_world)) /\
  option_map PIXI.scale_x (boardContainer (comp w')) = Some (of_Z 1) /\
  comp (snd (rotateBoard no_fault activated_world)) = comp activated_world.
Proof.
  destruct (rotateBoard_defers_all_motion no_fault collapsed_world)
    as [Hcur [_ [_ [Hy _]]]].
  destruct (rotateBoard_defers_all_motion no_fault activated_world)
    as [_ [_ [_ [_ [Hsame _]]]]].
  split; [exact Hcur | split; [exact Hy | split; [reflexivity|]]].
  exact (Hsame _ eq_refl eq_refl).
Defined.

Lemma kept_since_refl (w0 : World) (b0 : PIXI.Container) :
  boardContainer (comp w0) = Some b0 ->
  Forall component_made (animations w0) ->
  kept_since w0 w0.
Proof.
  intros Hb Hanims. unfold kept_since.
  split; [exists b0, b0; repeat split; auto|].
  repeat split; auto.
  exists []. split; [now rewrite app_nil_r | constructor].
Qed.

(** The unchanged fields of [kept_since], then the animations, then the log. *)
Ltac kept_fields :=
  do 5 (split; [solve [auto | intuition congruence]|]).

Lemma kept_since_step (last_frame : number -> number -> number)
  (ev : Event) (w0 w : World) :
  kept_since w0 w -> kept_since w0 (apply_event last_frame ev w).
Proof.
  intros [[b [b0 [Hb [Hb0 [Hx [Hpx Hpy]]]]]]
            [Hcan [Happ [Horig [Hgrid [Hact [Hanims [log [Hlog Hmsgs]]]]]]]]].
  unfold kept_since.
  destruct ev as [|gsap_throws|gsap_throws|r|n]; cbn [apply_event].
  - (* Activate *)
    unfold App.activateFeature, modify_comp; cbn [snd].
    split; [exists b, b0; repeat split; auto|].
    kept_fields. split; [assumption | exists log; auto].
  - (* Rotate *)
    rewrite App_rotateBoard_eq.
    destruct (activated (comp w)) eqn:Ha.
    + rewrite (rotateBoard_any gsap_throws w b Hb Ha); cbn [snd].
      destruct (after_guard_board (comp w) b Hb)
        as [b' [Hb' [Hx' [_ [_ [Hpx' [Hpy' [Ha' [_ [Hcan' [Happ' [_ [Ho' [Hg' _]]]]]]]]]]]]]].
      assert (Hcm : forall k, component_made
                (gsap.OfTimeline
                   (rotation_timeline (currentRotation (comp w)) (PIXI.y b) k)))
        by (intros k; left; eauto).
      destruct (first_fault gsap_throws 0 7) as [[[|k] e]|];
        cbn -[after_guard rotation_timeline];
        (split; [exists b', b0; repeat split; congruence|]);
        kept_fields.
      * split; [assumption|].
        exists (log ++ [("Failed to animate board rotation:", e)]).
        split; [rewrite Hlog, app_assoc; reflexivity|].
        apply Forall_app; split; [assumption | constructor; [reflexivity | constructor]].
      * split; [apply Forall_app; split;
                [assumption | constructor; [apply Hcm | constructor]]|].
        exists (log ++ [("Failed to animate board rotation:", e)]).
        split; [rewrite Hlog, app_assoc; reflexivity|].
        apply Forall_app; split; [assumption | constructor; [reflexivity | constructor]].
      * split; [apply Forall_app; split;
                [assumption | constructor; [apply Hcm | constructor]]|].
        exists log; auto.
    + rewrite rotateBoard_eq, Hb, Ha; cbn [isSome negb orb snd].
      split; [exists b, b0; repeat split; auto|].
      kept_fields. split; [assumption | exists log; auto].
  - (* Reset *)
    unfold App.resetBoard.
    rewrite (resetRotation_any gsap_throws w b Hb).
    destruct (gsap_throws 0%nat); cbn [snd comp animations console].
    + split; [exists b, b0; repeat split; auto|].
      kept_fields. split; [assumption | exists log; auto].
    + split; [exists b, b0; repeat split; auto|].
      kept_fields. split; [| exists log; auto].
      apply Forall_app; split; [assumption | constructor; [now right | constructor]].
  - (* SetRotation *)
    destruct (same_value (rotation (comp w)) r) eqn:Hsame.
    + rewrite (set_rotation_unchanged r w Hsame); cbn [snd].
      split; [exists b, b0; repeat split; auto|].
      kept_fields. split; [assumption | exists log; auto].
    + rewrite (set_rotation_changed r w Hsame); cbn [snd comp set_comp].
      rewrite (rotation_effect_runs r (set_rotation_prop (Some r) (comp w)) b eq_refl Hb).
      cbn [animations console].
      split; [eexists; exists b0; split; [reflexivity | repeat split; auto]|].
      kept_fields. split; [assumption | exists log; auto].
  - (* Complete *)
    destruct (nth_error (animations w) n) as [a|] eqn:Hn.
    + assert (Ha : component_made a).
      { rewrite Forall_forall in Hanims. apply Hanims. eapply nth_error_In; eauto. }
      destruct Ha as [[r [y [k ->]]] | ->]; cbn [finish set_comp comp animations console].
      * rewrite (finish_rotation_timeline_any last_frame r y k (comp w) b Hb).
        split; [eexists; exists b0; split; [reflexivity | repeat split; auto]|].
        kept_fields. split; [assumption | exists log; auto].
      * rewrite (finish_reset_tween last_frame (comp w) b Hb).
        split; [eexists; exists b0; split; [reflexivity | repeat split; auto]|].
        kept_fields. split; [assumption | exists log; auto].
    + split; [exists b, b0; repeat split; auto|].
      kept_fields. split; [assumption | exists log; auto].
Qed.

(** X4: whatever the user, the parent and the animation engine do to a
    mounted board, in any order, with any drift and any library failures:
    the board container stays in place with its [x] and its pivot, the
    canvas, the application, [originalBoardY] and the symbol grid are never
    written, an activated feature stays activated, every animation handed
    to the library is a rotation timeline or a reset tween, and the console
    only ever receives rotation errors. *)
Theorem events_keep_the_board
  (last_frame : number -> number -> number) (evs : list Event)
  (w0 : World) (b0 : PIXI.Container) :
  boardContainer (comp w0) = Some b0 ->
  Forall component_made (animations w0) ->
  kept_since w0 (run_events last_frame evs w0).
Proof.
  intros Hb Hanims.
  assert (H : forall w, kept_since w0 w -> kept_since w0 (run_events last_frame evs w)).
  { unfold run_events. induction evs as [|ev evs IH]; intros w Hw; simpl.
    - exact Hw.
    - apply IH. now apply kept_since_step. }
  apply H. now apply (kept_since_refl w0 b0).
Qed.

Lemma events_keep_the_board_witness :
  kept_since mounted (run_events exact_engine sample_events mounted).
Proof.
  exact (events_keep_the_board exact_engine sample_events mounted
           (PIXI.mkContainer (CANVAS_WIDTH / of_Z 2)%js (CANVAS_HEIGHT / of_Z 2)%js
              (of_Z 0) one one (BOARD_WIDTH / of_Z 2)%js (BOARD_HEIGHT / of_Z 2)%js)
           eq_refl (Forall_nil _)).
Defined.

(** ** Rotations in sequence and in parallel *)

(** X5: a second trigger while the first rotation is still running does not
    add a quarter turn.  The tracked rotation only changes on completion,
    so both timelines start from the same [r]; whatever the engine has done
    to the board in between and in whichever order the two complete, the
    board ends at [r + 90], not [r + 180]. *)
Theorem retrigger_adds_no_quarter_turn
  (last_frame : number -> number -> number)
  (gsap_throws1 gsap_throws2 : nat -> option Error)
  (w : World) (b b_mid : PIXI.Container) :
  (forall n, gsap_throws1 n = None) ->
  (forall n, gsap_throws2 n = None) ->
  boardContainer (comp w) = Some b ->
  activated (comp w) = true ->
  let r := currentRotation (comp w) in
  let w1 := snd (rotateBoard gsap_throws1 w) in
  let w_mid := set_comp (set_boardContainer (Some b_mid) (comp w1)) w1 in
  let w2 := snd (rotateBoard gsap_throws2 w_mid) in
  exists tl1 tl2,
    new_animations w w2 = [gsap.OfTimeline tl1; gsap.OfTimeline tl2] /\
    forall c' b',
      boardContainer c' = Some b' ->
      let first_then_second :=
        finish_timeline last_frame tl2 (finish_timeline last_frame tl1 c') in
      let second_then_first :=
        finish_timeline last_frame tl1 (finish_timeline last_frame tl2 c') in
      currentRotation first_then_second = (r + of_Z 90)%js /\
      currentRotation second_then_first = (r + of_Z 90)%js /\
      option_map PIXI.rotation (boardContainer first_then_second)
        = Some (deg2rad (r + of_Z 90)%js) /\
      option_map PIXI.rotation (boardContainer second_then_first)
        = Some (deg2rad (r + of_Z 90)%js).
Proof.
  intros Hok1 Hok2 Hb Hact r w1 w_mid w2.
  assert (Hw1 : w1 = mkWorld (after_guard (comp w))
                      (animations w ++
                       [gsap.OfTimeline (rotation_timeline r (PIXI.y b) 6)])
                      (console w)).
  { subst w1. rewrite (rotateBoard_any gsap_throws1 w b Hb Hact).
    now rewrite (first_fault_none gsap_throws1 7 0 Hok1). }
  destruct (after_guard_board (comp w) b Hb)
    as [b1 [Hb1 [_ [_ [_ [_ [_ [Ha1 [_ [_ [_ [Hcur1 _]]]]]]]]]]]].
  assert (Hmid_b : boardContainer (comp w_mid) = Some b_mid) by reflexivity.
  assert (Hmid_a : activated (comp w_mid) = true).
  { subst w_mid. rewrite Hw1. cbn. congruence. }
  assert (Hmid_r : currentRotation (comp w_mid) = r).
  { subst w_mid. rewrite Hw1. cbn. exact Hcur1. }
  assert (Hmid_l : animations w_mid =
            animations w ++ [gsap.OfTimeline (rotation_timeline r (PIXI.y b) 6)]).
  { subst w_mid. rewrite Hw1. reflexivity. }
  exists (rotation_timeline r (PIXI.y b) 6), (rotation_timeline r (PIXI.y b_mid) 6).
  split.
  - subst w2. rewrite (rotateBoard_any gsap_throws2 w_mid b_mid Hmid_b Hmid_a).
    rewrite (first_fault_none gsap_throws2 7 0 Hok2).
    cbn [snd]. rewrite Hmid_l, Hmid_r, <- app_assoc.
    apply new_animations_app.
  - intros c' b' Hb'.
    rewrite (finish_rotation_timeline_any last_frame r (PIXI.y b) 6 c' b' Hb').
    rewrite (finish_rotation_timeline_any last_frame r (PIXI.y b_mid) 6 c' b' Hb').
    erewrite !finish_rotation_timeline_any by reflexivity.
    repeat split.
Qed.

Lemma retrigger_adds_no_quarter_turn_witness :
  let w1 := snd (rotateBoard no_fault activated_world) in
  let w_mid :=
    set_comp (set_boardContainer
                (Some (PIXI.mkContainer (CANVAS_WIDTH / of_Z 2)%js (of_Z 160)
                         (deg2rad (of_Z 95)) (decimal 90 2) (decimal 90 2)
                         (BOARD_WIDTH / of_Z 2)%js (BOARD_HEIGHT / of_Z 2)%js))
                (comp w1)) w1 in
  let w2 := snd (rotateBoard no_fault w_mid) in
  exists tl1 tl2,
    new_animations activated_world w2 = [gsap.OfTimeline tl1; gsap.OfTimeline tl2] /\
    forall c' b',
      boardContainer c' = Some b' ->
      let first_then_second :=
        finish_timeline exact_engine tl2 (finish_timeline exact_engine tl1 c') in
      let second_then_first :=
        finish_timeline exact_engine tl1 (finish_timeline exact_engine tl2 c') in
      currentRotation first_then_second = (of_Z 0 + of_Z 90)%js /\
      currentRotation second_then_first = (of_Z 0 + of_Z 90)%js /\
      option_map PIXI.rotation (boardContainer first_then_second)
        = Some (deg2rad (of_Z 0 + of_Z 90)%js) /\
      option_map PIXI.rotation (boardContainer second_then_first)
        = Some (deg2rad (of_Z 0 + of_Z 90)%js).
Proof.
  exact (retrigger_adds_no_quarter_turn exact_engine no_fault no_fault
           activated_world
           (PIXI.mkContainer (CANVAS_WIDTH / of_Z 2)%js (CANVAS_HEIGHT / of_Z 2)%js
              (of_Z 0) one one (BOARD_WIDTH / of_Z 2)%js (BOARD_HEIGHT / of_Z 2)%js)
           (PIXI.mkContainer (CANVAS_WIDTH / of_Z 2)%js (of_Z 160)
              (deg2rad (of_Z 95)) (decimal 90 2) (decimal 90 2)
              (BOARD_WIDTH / of_Z 2)%js (BOARD_HEIGHT / of_Z 2)%js)
           (fun _ => eq_refl) (fun _ => eq_refl) eq_refl eq_refl).
Defined.

Lemma set_boardContainer_after_guard (o : option PIXI.Container) (c : Component) :
  set_boardContainer o (after_guard c) = set_boardContainer o c.
Proof.
  unfold after_guard.
  destruct (boardContainer c) as [b|]; [|reflexivity].
  destruct ((PIXI.scale_x b === of_Z 0) || (PIXI.scale_y b === of_Z 0))%js;
    reflexivity.
Qed.

(** The world once a triggered rotation has run to completion. *)
Lemma settle_rotateBoard (last_frame : number -> number -> number)
  (gsap_throws : nat -> option Error) (w : World) (b : PIXI.Container) :
  (forall n, gsap_throws n = None) ->
  boardContainer (comp w) = Some b ->
  activated (comp w) = true ->
  settle last_frame (rotateBoard gsap_throws) w =
  mkWorld
    (set_currentRotation (currentRotation (comp w) + of_Z 90)%js
       (set_boardContainer
          (Some (PIXI.mkContainer (PIXI.x b) (PIXI.y b)
                   (deg2rad (currentRotation (comp w) + of_Z 90)%js)
                   (of_Z 1) (of_Z 1) (PIXI.pivot_x b) (PIXI.pivot_y b)))
          (comp w)))
    (animations w ++
     [gsap.OfTimeline (rotation_timeline (currentRotation (comp w)) (PIXI.y b) 6)])
    (console w).
Proof.
  intros Hok Hb Hact.
  unfold settle, run_to_completion.
  rewrite (rotateBoard_any gsap_throws w b Hb Hact).
  rewrite (first_fault_none gsap_throws 7 0 Hok).
  cbn [snd]. rewrite new_animations_app.
  cbn [fold_left finish comp set_comp animations console].
  destruct (after_guard_board (comp w) b Hb)
    as [b1 [Hb1 [Hx [_ [_ [Hpx [Hpy _]]]]]]].
  rewrite (finish_rotation_timeline_any last_frame _ _ 6 _ b1 Hb1).
  rewrite Hx, Hpx, Hpy.
  rewrite set_boardContainer_after_guard.
  reflexivity.
Qed.

(** The world once a reset has run to completion. *)
Lemma settle_resetRotation (last_frame : number -> number -> number)
  (gsap_throws : nat -> option Error) (w : World) (b : PIXI.Container) :
  gsap_throws 0%nat = None ->
  boardContainer (comp w) = Some b ->
  settle last_frame (resetRotation gsap_throws) w =
  mkWorld
    (set_currentRotation (of_Z 0)
       (set_boardContainer
          (Some (PIXI.set_rotation (last_frame (PIXI.rotation b) (of_Z 0)) b))
          (comp w)))
    (animations w ++ [gsap.OfTween reset_tween])
    (console w).
Proof.
  intros Hok Hb.
  unfold settle, run_to_completion.
  rewrite (resetRotation_any gsap_throws w b Hb), Hok.
  cbn [snd]. rewrite new_animations_app.
  cbn [fold_left finish comp set_comp animations console].
  now rewrite (finish_reset_tween last_frame (comp w) b Hb).
Qed.

(** X6: completed rotations add up.  After [n] rotations, each run to
    completion before the next is triggered, the tracked rotation is the
    starting one with 90 added [n] times (it is never reduced modulo 360),
    the board shows that angle at scale 1.0, and its position and pivot
    are what they were before the first; nothing is logged. *)
Theorem rotations_accumulate
  (last_frame : number -> number -> number)
  (gsap_throws : nat -> option Error) (n : nat) (w : World) (b : PIXI.Container) :
  (forall k, gsap_throws k = None) ->
  boardContainer (comp w) = Some b ->
  activated (comp w) = true ->
  let w_n := Nat.iter (S n) (settle last_frame (rotateBoard gsap_throws)) w in
  let r_n := Nat.iter (S n) (fun r => (r + of_Z 90)%js) (currentRotation (comp w)) in
  currentRotation (comp w_n) = r_n /\
  boardContainer (comp w_n) =
    Some (PIXI.mkContainer (PIXI.x b) (PIXI.y b) (deg2rad r_n) (of_Z 1) (of_Z 1)
            (PIXI.pivot_x b) (PIXI.pivot_y b)) /\
  activated (comp w_n) = true /\
  List.length (animations w_n) = (List.length (animations w) + S n)%nat /\
  console w_n = console w.
Proof.
  intros Hok Hb Hact.
  induction n as [|n IH].
  - cbn [Nat.iter nat_rect].
    rewrite (settle_rotateBoard last_frame gsap_throws w b Hok Hb Hact).
    cbn. rewrite length_app. cbn. repeat split; try assumption; lia.
  - destruct IH as [Hr [Hbn [Han [Hlen Hlog]]]].
    set (w_n := Nat.iter (S n) (settle last_frame (rotateBoard gsap_throws)) w) in *.
    set (r_n := Nat.iter (S n) (fun r => (r + of_Z 90)%js) (currentRotation (comp w))) in *.
    change (Nat.iter (S (S n)) (settle last_frame (rotateBoard gsap_throws)) w)
      with (settle last_frame (rotateBoard gsap_throws) w_n).
    change (Nat.iter (S (S n)) (fun r => (r + of_Z 90)%js) (currentRotation (comp w)))
      with (r_n + of_Z 90)%js.
    clearbody w_n r_n.
    rewrite (settle_rotateBoard last_frame gsap_throws w_n _ Hok Hbn Han).
    cbn. rewrite length_app, Hr, Hlen, Hlog. cbn.
    repeat split; try assumption; lia.
Qed.

Lemma rotations_accumulate_witness :
  let w_4 := Nat.iter 4 (settle exact_engine (rotateBoard no_fault)) activated_world in
  currentRotation (comp w_4) = of_Z 360 /\
  boardContainer (comp w_4) =
    Some (PIXI.mkContainer (of_Z 240) (of_Z 240) (deg2rad (of_Z 360)) (of_Z 1) (of_Z 1)
            (of_Z 190) (of_Z 190)) /\
  activated (comp w_4) = true /\
  List.length (animations w_4) = 4%nat /\
  console w_4 = [].
Proof.
  exact (rotations_accumulate exact_engine no_fault 3 activated_world
           (PIXI.mkContainer (CANVAS_WIDTH / of_Z 2)%js (CANVAS_HEIGHT / of_Z 2)%js
              (of_Z 0) one one (BOARD_WIDTH / of_Z 2)%js (BOARD_HEIGHT / of_Z 2)%js)
           (fun _ => eq_refl) eq_refl eq_refl).
Defined.

(** X7: a rotation followed by a reset, each run to completion, is a round
    trip: a board at rest at angle 0 (tracked rotation 0, scale 1.0) is back
    in exactly the state it started from. *)
Theorem rotate_then_reset_is_identity
  (last_frame : number -> number -> number)
  (gsap_throws1 gsap_throws2 : nat -> option Error)
  (w : World) (b : PIXI.Container) :
  (forall n, gsap_throws1 n = None) ->
  gsap_throws2 0%nat = None ->
  (forall v, last_frame v (of_Z 0) = of_Z 0) ->
  boardContainer (comp w) = Some b ->
  activated (comp w) = true ->
  currentRotation (comp w) = of_Z 0 ->
  PIXI.rotation b = of_Z 0 ->
  PIXI.scale_x b = of_Z 1 ->
  PIXI.scale_y b = of_Z 1 ->
  comp (settle last_frame (resetRotation gsap_throws2)
          (settle last_frame (rotateBoard gsap_throws1) w))
  = comp w.
Proof.
  intros Hok1 Hok2 Hland Hb Hact Hcur Hrot Hsx Hsy.
  rewrite (settle_rotateBoard last_frame gsap_throws1 w b Hok1 Hb Hact).
  erewrite settle_resetRotation by (exact Hok2 || reflexivity).
  cbn. rewrite Hland.
  destruct w as [c anims log]; destruct c; destruct b; cbn in *.
  subst. reflexivity.
Qed.

Lemma rotate_then_reset_is_identity_witness :
  comp (settle exact_engine (resetRotation no_fault)
          (settle exact_engine (rotateBoard no_fault) activated_world))
  = comp activated_world.
Proof.
  exact (rotate_then_reset_is_identity exact_engine no_fault no_fault activated_world
           (PIXI.mkContainer (CANVAS_WIDTH / of_Z 2)%js (CANVAS_HEIGHT / of_Z 2)%js
              (of_Z 0) one one (BOARD_WIDTH / of_Z 2)%js (BOARD_HEIGHT / of_Z 2)%js)
           (fun _ => eq_refl) eq_refl (fun _ => eq_refl)
           eq_refl eq_refl eq_refl eq_refl eq_refl eq_refl).
Defined.

(** X8: the angle the next rotation starts from after the [rotation]
    property has been set.  When the assignment changes the property's
    value, the rotation starts from the new angle [r] and ends, on
    completion, at [r + 90] degrees; when the property already holds the
    value, the assignment is dropped and the rotation starts from the
    tracked rotation, whatever the property says.  The position is untouched
    in both cases. *)
Theorem property_then_rotation
  (last_frame : number -> number -> number)
  (gsap_throws : nat -> option Error) (r : number) (w : World) (b : PIXI.Container) :
  (forall n, gsap_throws n = None) ->
  boardContainer (comp w) = Some b ->
  activated (comp w) = true ->
  let start :=
    if same_value (rotation (comp w)) r then currentRotation (comp w) else r in
  let final :=
    run_to_completion last_frame (rotateBoard gsap_throws) (snd (set_rotation r w)) in
  currentRotation final = (start + of_Z 90)%js /\
  boardContainer final =
    Some (PIXI.mkContainer (PIXI.x b) (PIXI.y b) (deg2rad (start + of_Z 90)%js)
            (of_Z 1) (of_Z 1) (PIXI.pivot_x b) (PIXI.pivot_y b)).
Proof.
  intros Hok Hb Hact start final. subst start final.
  destruct (same_value (rotation (comp w)) r) eqn:Hsame.
  - rewrite (set_rotation_unchanged r w Hsame); cbn [snd].
    pose proof (settle_rotateBoard last_frame gsap_throws w _ Hok Hb Hact) as Hs.
    apply (f_equal comp) in Hs. cbn [comp settle set_comp] in Hs.
    rewrite Hs. split; reflexivity.
  - rewrite (set_rotation_changed r w Hsame); cbn [snd].
    set (w1 := set_comp (rotation_effect (set_rotation_prop (Some r) (comp w))) w).
    assert (Hc1 : comp w1 =
                  set_currentRotation r
                    (set_boardContainer
                       (Some (PIXI.set_rotation (r * (Math_PI / of_Z 180))%js b))
                       (set_rotation_prop (Some r) (comp w)))).
    { subst w1. cbn [comp set_comp]. apply rotation_effect_runs; [reflexivity | exact Hb]. }
    assert (Hb1 : boardContainer (comp w1) =
                  Some (PIXI.set_rotation (r * (Math_PI / of_Z 180))%js b))
      by (rewrite Hc1; reflexivity).
    assert (Hact1 : activated (comp w1) = true) by (rewrite Hc1; exact Hact).
    assert (Hcur1 : currentRotation (comp w1) = r) by (rewrite Hc1; reflexivity).
    pose proof (settle_rotateBoard last_frame gsap_throws w1 _ Hok Hb1 Hact1) as Hs.
    apply (f_equal comp) in Hs. cbn [comp settle set_comp] in Hs.
    rewrite Hs, Hcur1. split; reflexivity.
Qed.

Lemma property_then_rotation_witness :
  let final :=
    run_to_completion exact_engine (rotateBoard no_fault)
      (snd (set_rotation (of_Z 30) activated_world)) in
  currentRotation final = of_Z 120 /\
  boardContainer final =
    Some (PIXI.mkContainer (of_Z 240) (of_Z 240) (deg2rad (of_Z 120))
            (of_Z 1) (of_Z 1) (of_Z 190) (of_Z 190)).
Proof.
  exact (property_then_rotation exact_engine no_fault (of_Z 30) activated_world
           (PIXI.mkContainer (CANVAS_WIDTH / of_Z 2)%js (CANVAS_HEIGHT / of_Z 2)%js
              (of_Z 0) one one (BOARD_WIDTH / of_Z 2)%js (BOARD_HEIGHT / of_Z 2)%js)
           (fun _ => eq_refl) eq_refl eq_refl).
Defined.

(** ** A reset during a rotation *)

(** X9: when a reset is requested while a rotation is running, the
    animation that finishes last decides.  If the rotation timeline
    completes after the reset tween, its handler puts the board back to a
    quarter turn on from where the rotation started, and the reset is
    undone; if the reset tween completes last, the board shows angle 0 and
    the tracked rotation is 0. *)
Theorem last_completion_wins
  (last_frame : number -> number -> number)
  (gsap_throws1 gsap_throws2 : nat -> option Error)
  (w : World) (b : PIXI.Container) :
  (forall n, gsap_throws1 n = None) ->
  gsap_throws2 0%nat = None ->
  (forall v, last_frame v (of_Z 0) = of_Z 0) ->
  boardContainer (comp w) = Some b ->
  activated (comp w) = true ->
  let r := currentRotation (comp w) in
  let w2 := snd (resetRotation gsap_throws2 (snd (rotateBoard gsap_throws1 w))) in
  exists tl tw,
    new_animations w w2 = [gsap.OfTimeline tl; gsap.OfTween tw] /\
    forall c' b',
      boardContainer c' = Some b' ->
      let rotation_last := finish_timeline last_frame tl (finish_tween last_frame tw c') in
      let reset_last := finish_tween last_frame tw (finish_timeline last_frame tl c') in
      currentRotation rotation_last = (r + of_Z 90)%js /\
      option_map PIXI.rotation (boardContainer rotation_last)
        = Some (deg2rad (r + of_Z 90)%js) /\
      currentRotation reset_last = of_Z 0 /\
      boardContainer reset_last =
        Some (PIXI.mkContainer (PIXI.x b') (PIXI.y b) (of_Z 0) (of_Z 1) (of_Z 1)
                (PIXI.pivot_x b') (PIXI.pivot_y b')).
Proof.
  intros Hok1 Hok2 Hland Hb Hact r w2. subst w2.
  rewrite (rotateBoard_any gsap_throws1 w b Hb Hact).
  rewrite (first_fault_none gsap_throws1 7 0 Hok1). cbn [snd].
  destruct (after_guard_board (comp w) b Hb) as [b1 [Hb1 _]].
  erewrite resetRotation_any by (exact Hb1).
  rewrite Hok2. cbn [snd comp animations console].
  exists (rotation_timeline r (PIXI.y b) 6), reset_tween.
  split; [rewrite <- app_assoc; apply new_animations_app|].
  intros c' b' Hb'.
  rewrite (finish_reset_tween last_frame c' b' Hb').
  rewrite (finish_rotation_timeline_any last_frame r (PIXI.y b) 6 c' b' Hb').
  erewrite finish_rotation_timeline_any by reflexivity.
  erewrite finish_reset_tween by reflexivity.
  cbn. rewrite Hland. repeat split.
Qed.

Lemma last_completion_wins_witness :
  let r := currentRotation (comp activated_world) in
  let w2 := snd (resetRotation no_fault (snd (rotateBoard no_fault activated_world))) in
  exists tl tw,
    new_animations activated_world w2 = [gsap.OfTimeline tl; gsap.OfTween tw] /\
    forall c' b',
      boardContainer c' = Some b' ->
      let rotation_last :=
        finish_timeline exact_engine tl (finish_tween exact_engine tw c') in
      let reset_last :=
        finish_tween exact_engine tw (finish_timeline exact_engine tl c') in
      currentRotation rotation_last = (r + of_Z 90)%js /\
      option_map PIXI.rotation (boardContainer rotation_last)
        = Some (deg2rad (r + of_Z 90)%js) /\
      currentRotation reset_last = of_Z 0 /\
      boardContainer reset_last =
        Some (PIXI.mkContainer (PIXI.x b') (CANVAS_HEIGHT / of_Z 2)%js (of_Z 0)
                (of_Z 1) (of_Z 1) (PIXI.pivot_x b') (PIXI.pivot_y b')).
Proof.
  exact (last_completion_wins exact_engine no_fault no_fault activated_world
           (PIXI.mkContainer (CANVAS_WIDTH / of_Z 2)%js (CANVAS_HEIGHT / of_Z 2)%js
              (of_Z 0) one one (BOARD_WIDTH / of_Z 2)%js (BOARD_HEIGHT / of_Z 2)%js)
           (fun _ => eq_refl) eq_refl (fun _ => eq_refl) eq_refl eq_refl).
Defined.

(** ** Mounting *)

Lemma canvas_centre :
  (CANVAS_WIDTH / of_Z 2)%js = of_Z 240 /\ (CANVAS_HEIGHT / of_Z 2)%js = of_Z 240 /\
  (BOARD_WIDTH / of_Z 2)%js = of_Z 190 /\ (BOARD_HEIGHT / of_Z 2)%js = of_Z 190 /\
  BOARD_WIDTH = of_Z 380 /\ CANVAS_WIDTH = of_Z 480.
Proof. repeat split; vm_compute; reflexivity. Qed.

(** X10: with its canvas element in place and [pixiApp.init] succeeding,
    [onMount] returns normally and builds the board from scratch: the
    container sits at the centre of the 480 x 480 canvas (240, 240) with its
    pivot at the centre of the 380 x 380 frame (190, 190), unrotated and at
    scale 1; the tracked rotation is 0 whatever it was, [originalBoardY] is
    the board's [y], the grid is freshly drawn, and the properties, the
    animations and the console are as before. *)
Theorem onMount_builds_centred_board
  (Math_random : nat -> number) (w : World) (div : HTMLDivElement) :
  canvasContainer (comp w) = Some div ->
  onMount Math_random None w =
  (Normal tt,
   mkWorld
     (mkComponent (activated (comp w)) (rotation (comp w)) (Some div)
        (Some (PIXI.mkContainer (of_Z 240) (of_Z 240) (of_Z 0) (of_Z 1) (of_Z 1)
                 (of_Z 190) (of_Z 190)))
        (Some the_app) (of_Z 0) (of_Z 240) (generateSymbolGrid Math_random))
     (animations w) (console w)).
Proof.
  intros Hcanvas.
  destruct canvas_centre as [Hcw [Hch [Hbw [Hbh _]]]].
  destruct w as [c anims log]; destruct c; simpl in *; subst.
  unfold onMount, bind, get_comp, try_catch, modify_comp, modify_board,
    initializeBoardContainer, ret; simpl.
  rewrite Hcw, Hch, Hbw, Hbh.
  reflexivity.
Qed.

Lemma onMount_builds_centred_board_witness :
  onMount alternating_random None
    (mkWorld (mkComponent true (Some (of_Z 30)) (Some the_div) None None
                (of_Z 270) zero []) [] []) =
  (Normal tt,
   mkWorld
     (mkComponent true (Some (of_Z 30)) (Some the_div)
        (Some (PIXI.mkContainer (of_Z 240) (of_Z 240) (of_Z 0) (of_Z 1) (of_Z 1)
                 (of_Z 190) (of_Z 190)))
        (Some the_app) (of_Z 0) (of_Z 240) (generateSymbolGrid alternating_random))
     [] []).
Proof.
  exact (onMount_builds_centred_board alternating_random
           (mkWorld (mkComponent true (Some (of_Z 30)) (Some the_div) None None
                       (of_Z 270) zero []) [] [])
           the_div eq_refl).
Defined.

(** X11: the two ways mounting can fail.  Without a canvas element
    [onMount] does nothing at all.  When [pixiApp.init] rejects, [onMount]
    still returns normally: the error is logged, the application object
    stays assigned, no board container is created, and from then on
    [rotateBoard] and [resetRotation] do nothing. *)
Theorem onMount_failures (Math_random : nat -> number)
  (init_throws : option Error) (gsap_throws : nat -> option Error) (w : World) :
  (canvasContainer (comp w) = None ->
   onMount Math_random init_throws w = (Normal tt, w)) /\
  (forall div e,
     canvasContainer (comp w) = Some div ->
     boardContainer (comp w) = None ->
     init_throws = Some e ->
     let w' := snd (onMount Math_random init_throws w) in
     fst (onMount Math_random init_throws w) = Normal tt /\
     console w' = console w ++ [("Failed to initialize board:", e)] /\
     boardContainer (comp w') = None /\
     pixiApp (comp w') = Some the_app /\
     animations w' = animations w /\
     rotateBoard gsap_throws w' = (Normal tt, w') /\
     resetRotation gsap_throws w' = (Normal tt, w')).
Proof.
  split.
  - intros Hc. unfold onMount, bind, get_comp. rewrite Hc. reflexivity.
  - intros div e Hc Hb He w'. subst w' init_throws.
    destruct w as [c anims log]; destruct c; simpl in *; subst.
    repeat split.
Qed.

Lemma onMount_failures_witness :
  let w := mkWorld (mkComponent true (Some zero) (Some the_div) None None zero zero [])
             [] [] in
  let w' := snd (onMount alternating_random (Some (JsError "WebGL unsupported")) w) in
  console w' = [("Failed to initialize board:", JsError "WebGL unsupported")] /\
  boardContainer (comp w') = None /\
  rotateBoard no_fault w' = (Normal tt, w') /\
  onMount alternating_random None (mkWorld initial_component [] [])
    = (Normal tt, mkWorld initial_component [] []).
Proof.
  pose proof (onMount_failures alternating_random (Some (JsError "WebGL unsupported"))
                no_fault
                (mkWorld (mkComponent true (Some zero) (Some the_div) None None
                            zero zero []) [] [])) as [_ H].
  destruct (H the_div (JsError "WebGL unsupported") eq_refl eq_refl eq_refl)
    as [_ [Hlog [Hb [_ [_ [Hrot _]]]]]].
  pose proof (onMount_failures alternating_random None no_fault
                (mkWorld initial_component [] [])) as [H0 _].
  split; [exact Hlog | split; [exact Hb | split; [exact Hrot | exact (H0 eq_refl)]]].
Defined.

(** X12: an angle passed through the [rotation] property before the board
    exists is not applied: the effect finds no container and leaves the
    tracked rotation alone, so that the assignment changes the property
    and nothing else (and nothing at all when the property already holds
    the value), and mounting afterwards starts the board at rotation 0
    although the property still holds the angle. *)
Theorem rotation_set_before_mount_is_lost
  (Math_random : nat -> number) (r : number) (w : World) (div : HTMLDivElement) :
  canvasContainer (comp w) = Some div ->
  boardContainer (comp w) = None ->
  let w1 := snd (set_rotation r w) in
  let w2 := snd (onMount Math_random None w1) in
  comp w1 = (if same_value (rotation (comp w)) r then comp w
             else set_rotation_prop (Some r) (comp w)) /\
  rotation (comp w2) = (if same_value (rotation (comp w)) r then rotation (comp w)
                        else Some r) /\
  currentRotation (comp w2) = of_Z 0 /\
  option_map PIXI.rotation (boardContainer (comp w2)) = Some (of_Z 0).
Proof.
  intros Hc Hb w1 w2.
  assert (H1 : comp w1 = (if same_value (rotation (comp w)) r then comp w
                          else set_rotation_prop (Some r) (comp w))).
  { subst w1. destruct (same_value (rotation (comp w)) r) eqn:Hsame.
    - rewrite (set_rotation_unchanged r w Hsame). reflexivity.
    - rewrite (set_rotation_changed r w Hsame); cbn [snd comp set_comp].
      apply rotation_effect_without_board. exact Hb. }
  assert (Hc1 : canvasContainer (comp w1) = Some div).
  { rewrite H1. destruct (same_value (rotation (comp w)) r); exact Hc. }
  subst w2. clearbody w1.
  rewrite (onMount_builds_centred_board Math_random w1 div Hc1).
  cbn [snd comp rotation currentRotation boardContainer option_map PIXI.rotation].
  rewrite H1. destruct (same_value (rotation (comp w)) r); repeat split.
Qed.

Lemma rotation_set_before_mount_is_lost_witness :
  let w := mkWorld (mkComponent true (Some zero) (Some the_div) None None zero zero [])
             [] [] in
  let w2 := snd (onMount alternating_random None (snd (set_rotation (of_Z 45) w))) in
  rotation (comp w2) = Some (of_Z 45) /\
  currentRotation (comp w2) = of_Z 0 /\
  option_map PIXI.rotation (boardContainer (comp w2)) = Some (of_Z 0).
Proof.
  exact (proj2
           (rotation_set_before_mount_is_lost alternating_random (of_Z 45)
              (mkWorld (mkComponent true (Some zero) (Some the_div) None None
                          zero zero []) [] [])
              the_div eq_refl eq_refl)).
Defined.

(** ** The grid of cells *)

Lemma place_cells_map (grid : list (option string)) (count : nat) :
  forall i children,
    place_cells grid i count children = children ++ map (cell_at grid) (seq i count).
Proof.
  induction count as [|count IH]; intros i children; simpl.
  - now rewrite app_nil_r.
  - rewrite IH, <- app_assoc. reflexivity.
Qed.

Lemma cell_at_lattice (grid : list (option string)) (i : nat) :
  (i < 25)%nat -> cell_at grid i = lattice_cell grid i.
Proof.
  intros Hi. unfold cell_at, lattice_cell.
  do 25 (destruct i as [|i]; [f_equal; vm_compute; reflexivity|]).
  lia.
Qed.

Lemma generateSymbolGrid_length (Math_random : nat -> number) :
  List.length (generateSymbolGrid Math_random) = 25%nat.
Proof.
  unfold generateSymbolGrid. now rewrite fill_grid_length.
Qed.

Lemma createSymbolsGrid_cells (Math_random : nat -> number) (w : World) :
  createSymbolsGrid Math_random w =
  (Normal
     (mkSymbolsGrid (of_Z 20) (of_Z 20)
        (map (lattice_cell (generateSymbolGrid Math_random)) (seq 0 25))),
   set_comp
     (mkComponent (activated (comp w)) (rotation (comp w)) (canvasContainer (comp w))
        (boardContainer (comp w)) (pixiApp (comp w)) (currentRotation (comp w))
        (originalBoardY (comp w)) (generateSymbolGrid Math_random)) w).
Proof.
  unfold createSymbolsGrid, bind, modify_comp, get_comp, ret; cbn [comp set_comp symbolGrid].
  rewrite generateSymbolGrid_length, place_cells_map. cbn [app].
  rewrite (map_ext_in (cell_at (generateSymbolGrid Math_random))
             (lattice_cell (generateSymbolGrid Math_random)) (seq 0 25)).
  - reflexivity.
  - intros i Hi. apply cell_at_lattice. apply in_seq in Hi. lia.
Qed.

(** X13: [createSymbolsGrid] always returns 25 cells, laid out row by row
    on a lattice of pitch 70 (cell size 60 plus spacing 10) from the
    grid's origin at (20, 20): cell [i] sits at column [i mod 5] and row
    [i / 5], has a 60 x 60 background, and shows the [i]-th symbol of the
    freshly generated grid, anchored at its centre (30, 30). *)
Theorem createSymbolsGrid_layout (Math_random : nat -> number) (w : World) :
  exists g,
    fst (createSymbolsGrid Math_random w) = Normal g /\
    symbolGrid (comp (snd (createSymbolsGrid Math_random w)))
      = generateSymbolGrid Math_random /\
    grid_x g = of_Z 20 /\ grid_y g = of_Z 20 /\
    List.length (grid_cells g) = 25%nat /\
    forall i,
      (i < 25)%nat ->
      exists cell,
        nth_error (grid_cells g) i = Some cell /\
        cell_x cell = of_Z (70 * Z.of_nat (i mod 5)) /\
        cell_y cell = of_Z (70 * Z.of_nat (i / 5)) /\
        Some (cell_text cell) = nth_error (generateSymbolGrid Math_random) i /\
        rect_width (cell_bg cell) = of_Z 60 /\
        rect_height (cell_bg cell) = of_Z 60 /\
        text_x cell = of_Z 30 /\ text_y cell = of_Z 30 /\
        text_anchor cell = decimal 5 1.
Proof.
  rewrite createSymbolsGrid_cells; cbn [fst snd comp set_comp symbolGrid].
  eexists; split; [reflexivity|].
  cbn [grid_x grid_y grid_cells].
  split; [reflexivity | split; [reflexivity | split; [reflexivity|]]].
  split; [now rewrite length_map, length_seq|].
  intros i Hi.
  exists (lattice_cell (generateSymbolGrid Math_random) i).
  split.
  - rewrite nth_error_map, nth_error_seq.
    destruct (Nat.ltb_spec i 25) as [_|H]; [reflexivity | lia].
  - unfold lattice_cell, createSymbolCell, grid_get;
      cbn [cell_x cell_y cell_text cell_bg rect_width rect_height text_x text_y text_anchor].
    split; [reflexivity | split; [reflexivity | split]].
    + destruct (nth_error (generateSymbolGrid Math_random) i) as [s|] eqn:Hn;
        [reflexivity|].
      apply nth_error_None in Hn. rewrite generateSymbolGrid_length in Hn. lia.
    + repeat split; vm_compute; reflexivity.
Qed.

Lemma createSymbolsGrid_layout_witness :
  exists g,
    fst (createSymbolsGrid alternating_random mounted) = Normal g /\
    exists cell,
      nth_error (grid_cells g) 13 = Some cell /\
      cell_x cell = of_Z 210 /\ cell_y cell = of_Z 140 /\
      cell_text cell = Some "Z".
Proof.
  destruct (createSymbolsGrid_layout alternating_random mounted)
    as [g [Hg [_ [_ [_ [_ H]]]]]].
  exists g. split; [exact Hg|].
  destruct (H 13%nat ltac:(lia)) as [cell [Hn [Hx [Hy [Ht _]]]]].
  exists cell. split; [exact Hn | split; [exact Hx | split; [exact Hy|]]].
  assert (Hz : nth_error (generateSymbolGrid alternating_random) 13 = Some (Some "Z"))
    by (vm_compute; reflexivity).
  rewrite Hz in Ht. now inversion Ht.
Defined.

Lemma lattice_cells_checked :
  forallb
    (fun i =>
       inside_frame (mkSymbolsGrid (of_Z 20) (of_Z 20) []) createBoardFrame
         (lattice_cell [] i) &&
       forallb (fun j => Nat.eqb i j || apart (lattice_cell [] i) (lattice_cell [] j))
         (seq 0 25))
    (seq 0 25) = true.
Proof. vm_compute. reflexivity. Qed.

Lemma lattice_cells_apart (grid : list (option string)) (i j : nat) :
  (i < 25)%nat -> (j < 25)%nat -> i <> j ->
  apart (lattice_cell grid i) (lattice_cell grid j) = true.
Proof.
  intros Hi Hj Hij.
  change (apart (lattice_cell grid i) (lattice_cell grid j))
    with (apart (lattice_cell [] i) (lattice_cell [] j)).
  pose proof lattice_cells_checked as H.
  rewrite forallb_forall in H.
  specialize (H i ltac:(apply in_seq; lia)).
  apply andb_true_iff in H. destruct H as [_ H].
  rewrite forallb_forall in H.
  specialize (H j ltac:(apply in_seq; lia)).
  apply orb_true_iff in H. destruct H as [H|H]; [|exact H].
  apply Nat.eqb_eq in H. contradiction.
Qed.

Lemma lattice_cells_inside (grid : list (option string))
  (cells : list SymbolCell) (i : nat) :
  (i < 25)%nat ->
  inside_frame (mkSymbolsGrid (of_Z 20) (of_Z 20) cells) createBoardFrame
    (lattice_cell grid i) = true.
Proof.
  intros Hi.
  change (inside_frame (mkSymbolsGrid (of_Z 20) (of_Z 20) cells) createBoardFrame
            (lattice_cell grid i))
    with (inside_frame (mkSymbolsGrid (of_Z 20) (of_Z 20) []) createBoardFrame
            (lattice_cell [] i)).
  pose proof lattice_cells_checked as H.
  rewrite forallb_forall in H.
  specialize (H i ltac:(apply in_seq; lia)).
  apply andb_true_iff in H. now destruct H as [H _].
Qed.

(** X14: the cells fit the frame and never touch: every cell
    [createSymbolsGrid] places lies inside the frame drawn by
    [createBoardFrame], at least [FRAME_PADDING] from each edge, and any
    two different cells are at least [SYMBOL_SPACING] apart, horizontally
    or vertically. *)
Theorem cells_fit_frame_and_stay_apart (Math_random : nat -> number) (w : World) :
  exists g,
    fst (createSymbolsGrid Math_random w) = Normal g /\
    (forall cell,
       In cell (grid_cells g) -> inside_frame g createBoardFrame cell = true) /\
    (forall i j a b,
       nth_error (grid_cells g) i = Some a ->
       nth_error (grid_cells g) j = Some b ->
       i <> j ->
       apart a b = true).
Proof.
  rewrite createSymbolsGrid_cells; cbn [fst].
  eexists; split; [reflexivity|].
  cbn [grid_cells].
  split.
  - intros cell Hin.
    apply in_map_iff in Hin. destruct Hin as [i [<- Hi]].
    apply in_seq in Hi.
    apply lattice_cells_inside. lia.
  - intros i j a b Ha Hb Hij.
    rewrite nth_error_map, nth_error_seq in Ha, Hb.
    destruct (Nat.ltb_spec i 25) as [Hi|Hi]; [|discriminate].
    destruct (Nat.ltb_spec j 25) as [Hj|Hj]; [|discriminate].
    cbn [option_map Nat.add] in Ha, Hb.
    inversion Ha; inversion Hb; subst a b.
    now apply lattice_cells_apart.
Qed.

Lemma cells_fit_frame_and_stay_apart_witness :
  exists g,
    fst (createSymbolsGrid alternating_random mounted) = Normal g /\
    forall a b,
      nth_error (grid_cells g) 4 = Some a ->
      nth_error (grid_cells g) 5 = Some b ->
      apart a b = true.
Proof.
  destruct (cells_fit_frame_and_stay_apart alternating_random mounted)
    as [g [Hg [_ H]]].
  exists g. split; [exact Hg|].
  intros a b Ha Hb. apply (H 4%nat 5%nat a b Ha Hb). discriminate.
Defined.

(** ** Which letters can be drawn *)

Lemma fill_grid_map (Math_random : nat -> number) (count : nat) :
  forall i grid,
    fill_grid Math_random i count grid =
    grid ++
    map (fun j =>
           array_get SYMBOLS
             (Math_floor (Math_random j * of_Z (Z.of_nat (List.length SYMBOLS)))%js))
      (seq i count).
Proof.
  induction count as [|count IH]; intros i grid; simpl.
  - now rewrite app_nil_r.
  - rewrite IH, <- app_assoc. reflexivity.
Qed.

Lemma draw_for_letter (k : nat) :
  (k < 26)%nat ->
  in_unit_interval (draw_for k) = true /\
  array_get SYMBOLS
    (Math_floor (draw_for k * of_Z (Z.of_nat (List.length SYMBOLS)))%js)
  = nth_error SYMBOLS k.
Proof.
  intros Hk.
  do 26 (destruct k as [|k]; [split; vm_compute; reflexivity|]).
  lia.
Qed.

(** X15: no letter is left out and no cell is special: for every letter of
    the alphabet and every cell of the grid there are values of
    [Math.random()] in [0, 1) for which [generateSymbolGrid] puts that
    letter in that cell. *)
Theorem every_letter_in_every_cell (s : string) (i : nat) :
  In s SYMBOLS ->
  (i < 25)%nat ->
  exists Math_random,
    (forall n, in_unit_interval (Math_random n) = true) /\
    nth_error (generateSymbolGrid Math_random) i = Some (Some s).
Proof.
  intros Hs Hi.
  apply In_nth_error in Hs. destruct Hs as [k Hk].
  assert (Hk26 : (k < 26)%nat).
  { change 26%nat with (List.length SYMBOLS).
    apply nth_error_Some. rewrite Hk. discriminate. }
  destruct (draw_for_letter k Hk26) as [Hunit Hget].
  exists (fun _ => draw_for k).
  split; [intros n; exact Hunit|].
  unfold generateSymbolGrid. rewrite fill_grid_map. cbn [app].
  rewrite nth_error_map.
  change (Z.to_nat (BOARD_CONFIG.GRID_SIZE * BOARD_CONFIG.GRID_SIZE)) with 25%nat.
  rewrite nth_error_seq.
  destruct (Nat.ltb_spec i 25) as [_|H]; [|lia].
  cbn [option_map]. rewrite Hget, Hk. reflexivity.
Qed.

Lemma every_letter_in_every_cell_witness :
  exists Math_random,
    (forall n, in_unit_interval (Math_random n) = true) /\
    nth_error (generateSymbolGrid Math_random) 24 = Some (Some "Q").
Proof.
  apply (every_letter_in_every_cell "Q" 24).
  - unfold SYMBOLS; simpl. do 16 right. left. reflexivity.
  - lia.
Defined.

(** ** The earlier versions *)

Lemma Inlined_rotateBoard_eq (gsap_throws : nat -> option Error) (w : World) :
  Inlined.rotateBoard gsap_throws w =
  if negb (isSome (boardContainer (comp w))) || negb (activated (comp w))
  then (Normal tt, w)
  else
    match createRotationAnimation gsap_throws w with
    | (Normal _, w') => (Normal tt, w')
    | (Throw e, w') => (Throw e, w')
    end.
Proof.
  destruct w as [c anims log].
  unfold Inlined.rotateBoard, createRotationAnimation, bind at 1, get_comp.
  cbn [comp].
  destruct (boardContainer c) as [b|] eqn:Hb; [|reflexivity].
  destruct (activated c) eqn:Hact; [|reflexivity].
  cbn [isSome negb orb].
  unfold bind at 8, get_comp. cbn [comp]. rewrite Hb.
  unfold rotation_onComplete.
  destruct ((PIXI.scale_x b === of_Z 0) || (PIXI.scale_y b === of_Z 0))%js;
    unfold bind, modify_board, modify_comp, ret, gsap_timeline, timeline_to, gsap_call;
    cbn [comp set_comp animations console];
    (destruct (gsap_throws 0%nat); [reflexivity|]);
    (destruct (gsap_throws 1%nat); [reflexivity|]);
    (destruct (gsap_throws 2%nat); [reflexivity|]);
    (destruct (gsap_throws 3%nat); [reflexivity|]);
    (destruct (gsap_throws 4%nat); [reflexivity|]);
    (destruct (gsap_throws 5%nat); [reflexivity|]);
    (destruct (gsap_throws 6%nat); reflexivity).
Qed.

(** X16: moving the timeline into [createRotationAnimation] changed one
    thing only.  For every world and every behaviour of the library the
    earlier, inlined [rotateBoard] and the present one leave the same
    component and the same animations; where the earlier one let a library
    exception escape, the present one returns normally with the error
    logged. *)
Theorem refactoring_only_added_the_catch
  (gsap_throws : nat -> option Error) (w : World) :
  rotateBoard gsap_throws w =
  match Inlined.rotateBoard gsap_throws w with
  | (Normal u, w') => (Normal u, w')
  | (Throw e, w') =>
      (Normal tt,
       mkWorld (comp w') (animations w')
         (console w' ++ [("Failed to animate board rotation:", e)]))
  end.
Proof.
  rewrite rotateBoard_eq, Inlined_rotateBoard_eq.
  destruct (negb (isSome (boardContainer (comp w))) || negb (activated (comp w)));
    [reflexivity|].
  destruct (createRotationAnimation gsap_throws w) as [[tl|e] w']; reflexivity.
Qed.

Lemma RotationOnly_rotateBoard_starts (gsap_throws : nat -> option Error)
  (w : World) (b : PIXI.Container) :
  (forall n, gsap_throws n = None) ->
  boardContainer (comp w) = Some b ->
  activated (comp w) = true ->
  RotationOnly.rotateBoard gsap_throws w =
  (Normal tt,
   mkWorld (comp w)
     (animations w ++
      [gsap.OfTimeline (RotationOnly.timeline (currentRotation (comp w)))])
     (console w)).
Proof.
  intros Hok Hb Hact.
  destruct w as [c anims log]; cbn [comp animations console] in *.
  unfold RotationOnly.rotateBoard, bind, get_comp; cbn [comp].
  rewrite Hb, Hact; cbn [isSome negb orb].
  unfold gsap_timeline, timeline_to, gsap_call, ret.
  rewrite ?Hok; cbn [comp set_animations animations console].
  rewrite ?Hok.
  repeat (rewrite (add_child_last anims);
          cbn [comp set_animations animations console gsap.tl_onComplete
               gsap.children app];
          rewrite ?Hok).
  reflexivity.
Qed.

Lemma RotationOnly_finish (last_frame : number -> number -> number)
  (r : number) (c' : Component) (b' : PIXI.Container) :
  boardContainer c' = Some b' ->
  finish_timeline last_frame (RotationOnly.timeline r) c' =
  set_currentRotation (currentRotation c' + of_Z 90)%js
    (set_boardContainer
       (Some (PIXI.set_rotation
                ((currentRotation c' * (Math_PI / of_Z 180)) + (Math_PI / of_Z 2))%js
                b'))
       c').
Proof.
  intros Hb.
  destruct c'; simpl in Hb; subst.
  destruct b'. reflexivity.
Qed.

(** X17: in the first, rotation-only draft the completion handler reads the
    tracked rotation when it runs instead of the value captured at the
    trigger.  A rotation that completes adds 90 to whatever is tracked at
    that moment and touches nothing of the board but its rotation; so two
    triggers in a row, both run to completion, turn the tracked rotation by
    two quarter turns, where the present component turns it by one. *)
Theorem draft_retrigger_adds_two_quarter_turns
  (last_frame : number -> number -> number)
  (gsap_throws1 gsap_throws2 : nat -> option Error)
  (w : World) (b : PIXI.Container) :
  (forall n, gsap_throws1 n = None) ->
  (forall n, gsap_throws2 n = None) ->
  boardContainer (comp w) = Some b ->
  activated (comp w) = true ->
  let w2 := snd (RotationOnly.rotateBoard gsap_throws2
                   (snd (RotationOnly.rotateBoard gsap_throws1 w))) in
  exists tl,
    new_animations w w2 = [gsap.OfTimeline tl; gsap.OfTimeline tl] /\
    comp w2 = comp w /\
    forall c' b',
      boardContainer c' = Some b' ->
      let once := finish_timeline last_frame tl c' in
      let twice := finish_timeline last_frame tl once in
      currentRotation once = (currentRotation c' + of_Z 90)%js /\
      boardContainer once =
        Some (PIXI.set_rotation
                ((currentRotation c' * (Math_PI / of_Z 180)) + (Math_PI / of_Z 2))%js
                b') /\
      currentRotation twice = ((currentRotation c' + of_Z 90) + of_Z 90)%js /\
      boardContainer twice =
        Some (PIXI.set_rotation
                (((currentRotation c' + of_Z 90) * (Math_PI / of_Z 180))
                 + (Math_PI / of_Z 2))%js
                b').
Proof.
  intros Hok1 Hok2 Hb Hact w2. subst w2.
  rewrite (RotationOnly_rotateBoard_starts gsap_throws1 w b Hok1 Hb Hact).
  cbn [snd].
  rewrite (RotationOnly_rotateBoard_starts gsap_throws2
             (mkWorld (comp w)
                (animations w ++
                 [gsap.OfTimeline (RotationOnly.timeline (currentRotation (comp w)))])
                (console w))
             b Hok2 Hb Hact).
  cbn [snd comp animations console].
  exists (RotationOnly.timeline (currentRotation (comp w))).
  split; [rewrite <- app_assoc; apply new_animations_app | split; [reflexivity|]].
  intros c' b' Hb'.
  rewrite (RotationOnly_finish last_frame _ c' b' Hb').
  erewrite RotationOnly_finish by reflexivity.
  destruct b'. repeat split.
Qed.

Lemma draft_retrigger_adds_two_quarter_turns_witness :
  let w2 := snd (RotationOnly.rotateBoard no_fault
                   (snd (RotationOnly.rotateBoard no_fault activated_world))) in
  exists tl,
    new_animations activated_world w2 = [gsap.OfTimeline tl; gsap.OfTimeline tl] /\
    currentRotation
      (finish_timeline exact_engine tl
         (finish_timeline exact_engine tl (comp w2))) = of_Z 180.
Proof.
  destruct (draft_retrigger_adds_two_quarter_turns exact_engine no_fault no_fault
              activated_world
              (PIXI.mkContainer (CANVAS_WIDTH / of_Z 2)%js (CANVAS_HEIGHT / of_Z 2)%js
                 (of_Z 0) one one (BOARD_WIDTH / of_Z 2)%js (BOARD_HEIGHT / of_Z 2)%js)
              (fun _ => eq_refl) (fun _ => eq_refl) eq_refl eq_refl)
    as [tl [Hnew [Hcomp H]]].
  exists tl. split; [exact Hnew|].
  destruct (H _ _ (eq_trans (f_equal boardContainer Hcomp) eq_refl))
    as [_ [_ [Htwice _]]].
  rewrite Htwice, Hcomp. reflexivity.
Defined.
